(** * The Flask front end of the RAG search application (src/main.py)

    A shallow embedding of the request handlers of [main.py]: the two
    global handles [search_system] and [vector_store], the upload folder,
    and the calls into the collaborators ([RAGSearch], [FaissVectorStore],
    [load_all_documents], [secure_filename], the file system).  Handlers
    are computations in a state-and-exception monad over a [World]; the
    collaborators, whose code is not part of [main.py], are the fields of
    a record [Collab] and every theorem quantifies over them. *)

From Stdlib Require Import ZArith String Ascii List Bool Lia Sorted.
From stdpp Require Import base decidable option list gmap sets strings.

Set Warnings "-clear-no-such-hyp".

Local Open Scope string_scope.
Local Open Scope list_scope.
Local Open Scope Z_scope.

(** ** Python built-ins used by [main.py] *)

Module Py.

(** A string is the UTF-8 encoding of the Python string. *)

(** [str.isspace] on the characters below 128: TAB..CR, FS..US and the
    space.  It serves where the text is ASCII by construction (the words
    of [secure_filename]); [strip] and [int] below have their own sets of
    white space. *)
Definition isspace (c : ascii) : bool :=
  let n := nat_of_ascii c in
  ((9 <=? n)%nat && (n <=? 13)%nat) || ((28 <=? n)%nat && (n <=? 32)%nat).

(** The encodings of all characters for which [str.isspace] holds: the
    ten below 128, then U+0085, U+00A0, U+1680, U+2000..U+200A, U+2028,
    U+2029, U+202F, U+205F and U+3000. *)
Definition whitespace : list (list ascii) :=
  map (map ascii_of_nat)
    [[9]; [10]; [11]; [12]; [13]; [28]; [29]; [30]; [31]; [32];
     [194; 133]; [194; 160]; [225; 154; 128];
     [226; 128; 128]; [226; 128; 129]; [226; 128; 130]; [226; 128; 131];
     [226; 128; 132]; [226; 128; 133]; [226; 128; 134]; [226; 128; 135];
     [226; 128; 136]; [226; 128; 137]; [226; 128; 138];
     [226; 128; 168]; [226; 128; 169]; [226; 128; 175]; [226; 129; 159];
     [227; 128; 128]]%nat.

(** [s] without the prefix [p], if it has it. *)
Fixpoint without_prefix (p s : list ascii) : option (list ascii) :=
  match p, s with
  | [], _ => Some s
  | a :: p', b :: s' => if Ascii.eqb a b then without_prefix p' s' else None
  | _ :: _, [] => None
  end.

(** [s] without its first character, when that is one of [chars]. *)
Fixpoint without_first (chars : list (list ascii)) (s : list ascii)
  : option (list ascii) :=
  match chars with
  | [] => None
  | p :: rest =>
      match without_prefix p s with
      | Some r => Some r
      | None => without_first rest s
      end
  end.

Fixpoint lstrip_fuel (chars : list (list ascii)) (fuel : nat) (s : list ascii)
  : list ascii :=
  match fuel with
  | O => s
  | S fuel' =>
      match without_first chars s with
      | Some r => lstrip_fuel chars fuel' r
      | None => s
      end
  end.

Definition lstrip_chars (s : list ascii) : list ascii :=
  lstrip_fuel whitespace (length s) s.

(** From the right the encodings are read backwards. *)
Definition rstrip_chars (s : list ascii) : list ascii :=
  rev (lstrip_fuel (map (@rev ascii) whitespace) (length s) (rev s)).

Definition strip_chars (s : list ascii) : list ascii :=
  rstrip_chars (lstrip_chars s).

(** [s.strip()] *)
Definition strip (s : string) : string :=
  string_of_list_ascii (strip_chars (list_ascii_of_string s)).

Definition lower_char (c : ascii) : ascii :=
  let n := nat_of_ascii c in
  if ((65 <=? n)%nat && (n <=? 90)%nat) then ascii_of_nat (n + 32) else c.

(** [s.lower()] on one-byte characters. *)
Definition lower_chars (s : list ascii) : list ascii := map lower_char s.

Definition lower (s : string) : string :=
  string_of_list_ascii (lower_chars (list_ascii_of_string s)).

(** [s.rsplit(sep, 1)] when [sep] occurs in [s]: the text before the last
    occurrence and the text after it; [None] when [sep] does not occur
    (Python then returns the one-element list [[s]]). *)
Fixpoint rsplit1_chars (sep : ascii) (s : list ascii)
  : option (list ascii * list ascii) :=
  match s with
  | [] => None
  | c :: r =>
      match rsplit1_chars sep r with
      | Some (before, after) => Some (c :: before, after)
      | None => if Ascii.eqb c sep then Some ([], r) else None
      end
  end.

Fixpoint startswith_chars (p s : list ascii) : bool :=
  match p, s with
  | [], _ => true
  | a :: p', b :: s' => Ascii.eqb a b && startswith_chars p' s'
  | _ :: _, [] => false
  end.

(** [s.endswith(suffix)] *)
Definition endswith (s suffix : string) : bool :=
  startswith_chars (rev (list_ascii_of_string suffix))
                   (rev (list_ascii_of_string s)).

Definition digit_val (c : ascii) : option Z :=
  let n := nat_of_ascii c in
  if ((48 <=? n)%nat && (n <=? 57)%nat) then Some (Z.of_nat (n - 48)) else None.

(** The digits of a base-10 literal as [int] reads them: single
    underscores are allowed between digits, nowhere else.  [after_digit]
    tells whether the previous character was a digit. *)
Fixpoint int_digits (acc : Z) (after_digit : bool) (s : list ascii)
  : option Z :=
  match s with
  | [] => if after_digit then Some acc else None
  | c :: r =>
      if Ascii.eqb c "_"%char
      then (if after_digit then int_digits acc false r else None)
      else match digit_val c with
           | Some d => int_digits (10 * acc + d) true r
           | None => None
           end
  end.

(** The white space [int] skips around the literal of a string of
    characters below 128: TAB..CR and the space. *)
Definition isspace_c (c : ascii) : bool :=
  let n := nat_of_ascii c in
  ((9 <=? n)%nat && (n <=? 13)%nat) || (n =? 32)%nat.

Fixpoint lstrip_c (s : list ascii) : list ascii :=
  match s with
  | c :: r => if isspace_c c then lstrip_c r else s
  | [] => []
  end.

Definition strip_c (s : list ascii) : list ascii :=
  rev (lstrip_c (rev (lstrip_c s))).

Definition is_ascii (s : list ascii) : bool :=
  forallb (fun c => (nat_of_ascii c <? 128)%nat) s.

(** [sys.int_info.default_max_str_digits]: a decimal literal with more
    digits is refused with [ValueError]. *)
Definition max_str_digits : nat := 4300.

Definition count_digits (s : list ascii) : nat :=
  length (List.filter (fun c => match digit_val c with Some _ => true | None => false end) s).

(** The literal after the sign. *)
Definition int_literal (s : list ascii) : option Z :=
  match int_digits 0 false s with
  | Some n => if (count_digits s <=? max_str_digits)%nat then Some n else None
  | None => None
  end.

Definition int_ascii (s : list ascii) : option Z :=
  match strip_c s with
  | "+"%char :: r => int_literal r
  | "-"%char :: r => Z.opp <$> int_literal r
  | t => int_literal t
  end.

(** [int(s)] for a string [s]; [None] stands for [ValueError].  When
    every character is below 128, white space around the literal is
    skipped, one sign is allowed, and the rest is a base-10 literal of at
    most [max_str_digits] digits.  For any other string the interpreter
    consults its tables of Unicode digits and white space; what it
    returns then is [non_ascii s]. *)
Definition int (non_ascii : string -> option Z) (s : string) : option Z :=
  if is_ascii (list_ascii_of_string s)
  then int_ascii (list_ascii_of_string s)
  else non_ascii s.

(** [os.path.splitext] on a POSIX path: the extension starts at the last
    dot of the last path component, unless that component has only dots
    before it. *)
Fixpoint all_dots (s : list ascii) : bool :=
  match s with
  | [] => true
  | c :: r => Ascii.eqb c "."%char && all_dots r
  end.

Fixpoint last_component (s : list ascii) : list ascii :=
  match s with
  | [] => []
  | c :: r =>
      if existsb (Ascii.eqb "/"%char) r then last_component r
      else if Ascii.eqb c "/"%char then r else s
  end.

Definition splitext_chars (p : list ascii) : list ascii * list ascii :=
  match rsplit1_chars "."%char p with
  | Some (root, ext) =>
      if existsb (Ascii.eqb "/"%char) ext then (p, [])
      else if all_dots (last_component root) then (p, [])
      else (root, "."%char :: ext)
  | None => (p, [])
  end.

Definition splitext (p : string) : string * string :=
  let '(root, ext) := splitext_chars (list_ascii_of_string p) in
  (string_of_list_ascii root, string_of_list_ascii ext).

(** [str(n)] for a natural number: its decimal digits. *)
Fixpoint digits_fuel (fuel : nat) (n : nat) (acc : list ascii) : list ascii :=
  match fuel with
  | O => acc
  | S fuel' =>
      let acc' := ascii_of_nat (48 + n mod 10) :: acc in
      if (n <? 10)%nat then acc' else digits_fuel fuel' (n / 10) acc'
  end.

Definition str_of_nat (n : nat) : string :=
  string_of_list_ascii (digits_fuel (S n) n []).


(** [os.path.join(a, b)] on POSIX for a directory name [a] that is not
    empty and has no trailing separator: an absolute [b] replaces [a]. *)
Definition path_join (a b : string) : string :=
  match b with
  | String "/"%char _ => b
  | _ => a ++ "/" ++ b
  end.

End Py.

(** ** werkzeug.utils.secure_filename

    The sanitiser is a parameter of the model (a field of [Collab]); this
    is the library function on POSIX for names made of characters below
    128, used where a concrete sanitiser is needed: separators become
    white space, the words are joined by underscores, every character
    outside [[A-Za-z0-9_.-]] is dropped, and dots and underscores are
    stripped from both ends. *)

Module Werkzeug.

Definition is_sep (c : ascii) : bool := Py.isspace c || Ascii.eqb c "/"%char.

Fixpoint words (cur : list ascii) (s : list ascii) : list (list ascii) :=
  match s with
  | [] => match cur with [] => [] | _ => [rev cur] end
  | c :: r =>
      if is_sep c
      then match cur with [] => words [] r | _ => rev cur :: words [] r end
      else words (c :: cur) r
  end.

Fixpoint join_underscore (ws : list (list ascii)) : list ascii :=
  match ws with
  | [] => []
  | [w] => w
  | w :: ws' => w ++ "_"%char :: join_underscore ws'
  end.

Definition keep (c : ascii) : bool :=
  let n := nat_of_ascii c in
  ((48 <=? n)%nat && (n <=? 57)%nat) || ((65 <=? n)%nat && (n <=? 90)%nat)
  || ((97 <=? n)%nat && (n <=? 122)%nat)
  || Ascii.eqb c "_"%char || Ascii.eqb c "."%char || Ascii.eqb c "-"%char.

Definition dot_or_underscore (c : ascii) : bool :=
  Ascii.eqb c "."%char || Ascii.eqb c "_"%char.

Fixpoint lstrip_dots (s : list ascii) : list ascii :=
  match s with
  | c :: r => if dot_or_underscore c then lstrip_dots r else s
  | [] => []
  end.

Definition secure_filename (filename : string) : string :=
  let joined := join_underscore (words [] (list_ascii_of_string filename)) in
  let kept := List.filter keep joined in
  string_of_list_ascii (rev (lstrip_dots (rev (lstrip_dots kept)))).

End Werkzeug.


(** ** Configuration (lines 38-39) *)

Definition UPLOAD_FOLDER : string := "data/sample_data".
Definition ALLOWED_EXTENSIONS : list string := ["pdf"].

(** [allowed_file] (lines 52-54). *)
Definition allowed_file (filename : string) : bool :=
  match Py.rsplit1_chars "."%char (list_ascii_of_string filename) with
  | None => false
  | Some (_, ext) =>
      bool_decide (string_of_list_ascii (Py.lower_chars ext) ∈ ALLOWED_EXTENSIONS)
  end.

(** ** The world the handlers run in *)

(** A call's result: a value, or an exception with its [str(e)].  Every
    exception of the collaborators is an instance of [Exception]. *)
Inductive outcome (A : Type) : Type :=
| Returns (a : A)
| Raises (msg : string).
Arguments Returns {A} a.
Arguments Raises {A} msg.

(** A document as handed to the store: the dictionary of lines 138-146
    (the time stamp [uploaded_at] is left out). *)
Record Doc : Type := mkDoc {
  doc_content : string;
  doc_filename : string;
  doc_path : string;
  doc_source : string
}.

(** An object created by [RAGSearch()] or [FaissVectorStore(...)],
    numbered by the moment of its creation. *)
Inductive handle : Type := Obj (serial : nat).

(** What the handlers do to the outside, in order. *)
Inductive Event : Type :=
| CallRAGSearch
| CallLoadAllDocuments
| CallFaissVectorStore
| CallLoad
| CallBuildFromDocuments (docs : list Doc)
| CallAddDocuments (docs : list Doc)
| CallSearchAndSummarize (query : string) (top_k : Z)
| FileSave (original : string) (path : string)
| FileRemove (path : string).

(** The two globals of lines 49-50, the regular files on disk (path to
    content, a content being the text [extract_text_from_pdf] gets out of
    it) and the calls made so far.  The upload folder itself exists (line
    46) and holds no sub-directory. *)
Record World : Type := mkWorld {
  search_system : option handle;
  vector_store : option handle;
  files : gmap string string;
  log : list Event
}.

(** The collaborators as one request sees them.  [None] in
    [os_listdir_error] means [os.listdir(UPLOAD_FOLDER)] works, [None] in
    [os_remove_error p] that [os.remove] of the existing file [p] works.
    [int_of_non_ascii s] is what [int(s)] gives for a string with a
    character outside ASCII. *)
Record Collab : Type := mkCollab {
  RAGSearch_new : outcome unit;
  load_all_documents : gmap string string -> outcome (list Doc);
  FaissVectorStore_new : outcome unit;
  store_load : outcome unit;
  store_build_from_documents : list Doc -> outcome unit;
  store_has_add_documents : bool;
  store_add_documents : list Doc -> outcome unit;
  Document_new : Doc -> outcome unit;
  has_search_and_summarize : bool;
  search_and_summarize : string -> Z -> outcome string;
  secure_filename : string -> string;
  os_listdir_error : option string;
  os_remove_error : string -> option string;
  int_of_non_ascii : string -> option Z
}.

(** One part of the multipart field [files]: the submitted name, the
    content, what [file.save] does, and the reading of [datetime.now()]
    (formatted, line 244) when the loop reaches this file. *)
Record FileStorage : Type := mkFile {
  file_name : string;
  file_content : string;
  file_save : outcome unit;
  file_stamp : string
}.

(** ** State and exceptions *)

Definition M (A : Type) : Type := World -> outcome A * World.

#[global] Instance M_ret : MRet M := fun A a w => (Returns a, w).

#[global] Instance M_bind : MBind M := fun A B k m w =>
  match m w with
  | (Returns a, w') => k a w'
  | (Raises e, w') => (Raises e, w')
  end.

Definition raise {A : Type} (msg : string) : M A := fun w => (Raises msg, w).

(** [try: body except Exception as e: handler(e)]; what [body] did to the
    world before raising stays done. *)
Definition try_except {A : Type} (body : M A) (handler : string -> M A) : M A :=
  fun w =>
    match body w with
    | (Returns a, w') => (Returns a, w')
    | (Raises e, w') => handler e w'
    end.

Definition lift {A : Type} (r : outcome A) : M A := fun w => (r, w).

(** A call into a collaborator or the file system: it is recorded, then
    returns or raises. *)
Definition call {A : Type} (ev : Event) (r : outcome A) : M A := fun w =>
  (r, mkWorld (search_system w) (vector_store w) (files w) (log w ++ [ev])).

Definition read {A : Type} (f : World -> A) : M A := fun w => (Returns (f w), w).

Definition set_search_system (h : handle) : M unit := fun w =>
  (Returns tt, mkWorld (Some h) (vector_store w) (files w) (log w)).

Definition set_vector_store (h : handle) : M unit := fun w =>
  (Returns tt, mkWorld (search_system w) (Some h) (files w) (log w)).

Definition set_files (fs : gmap string string) : M unit := fun w =>
  (Returns tt, mkWorld (search_system w) (vector_store w) fs (log w)).

Definition new_object : M handle := read (fun w => Obj (length (log w))).

(** ** The file system calls *)

(** [os.path.exists(path)]: a regular file, or the upload folder. *)
Definition os_path_exists (path : string) : M bool :=
  read (fun w => bool_decide (is_Some (files w !! path))
                 || bool_decide (path = Py.path_join UPLOAD_FOLDER "")).

(** [os.remove(path)]: a regular file is removed unless the system
    refuses; the folder gives [IsADirectoryError], a missing path
    [FileNotFoundError]. *)
Definition os_remove (c : Collab) (path : string) : M unit :=
  fs ← read files;
  match fs !! path with
  | Some _ =>
      match os_remove_error c path with
      | None => call (FileRemove path) (Returns tt) ;; set_files (delete path fs)
      | Some e => call (FileRemove path) (Raises e)
      end
  | None =>
      call (FileRemove path)
           (Raises (if bool_decide (path = Py.path_join UPLOAD_FOLDER "")
                    then "[Errno 21] Is a directory: '" ++ path ++ "'"
                    else "[Errno 2] No such file or directory: '" ++ path ++ "'"))
  end.

(** [file.save(path)]: writes the content unless it raises. *)
Definition save (f : FileStorage) (path : string) : M unit :=
  call (FileSave (file_name f) path) (file_save f) ;;
  fs ← read files;
  set_files (<[path := file_content f]> fs).

(** The names [os.listdir(UPLOAD_FOLDER)] returns: the last component of
    every path directly under the folder. *)
Definition child_name (path : string) : option string :=
  let prefix := list_ascii_of_string (UPLOAD_FOLDER ++ "/") in
  let p := list_ascii_of_string path in
  if Py.startswith_chars prefix p
  then let n := drop (length prefix) p in
       if existsb (Ascii.eqb "/"%char) n then None
       else match n with [] => None | _ => Some (string_of_list_ascii n) end
  else None.

Definition listing (fs : gmap string string) : list string :=
  omap child_name (elements (dom fs)).

Definition os_listdir (c : Collab) : M (list string) :=
  match os_listdir_error c with
  | Some msg => raise msg
  | None => read (fun w => listing (files w))
  end.

(** [extract_text_from_pdf] (lines 56-68): never raises; no text when
    the file cannot be opened. *)
Definition extract_text_from_pdf (pdf_path : string) : M string :=
  read (fun w => default "" (files w !! pdf_path)).

(** ** Responses *)

Record UploadedEntry : Type := mkUploaded {
  up_original : string;
  up_saved_as : string;
  up_status : string;
  up_message : string
}.

Record FailedEntry : Type := mkFailed {
  fl_original : string;
  fl_error : string
}.

(** The body of a response: the rendered results page with its two
    template variables, or one of the JSON objects of the handlers (the
    constant fields [upload_folder] and [debug_mode] and the type name of
    the search system are left out). *)
Inductive Body : Type :=
| Results (query summary : string)
| JsonError (error : string)
| JsonStatusError (error : string)
| JsonSuccess (message : string)
| JsonUpload (uploaded : list UploadedEntry) (failed : list FailedEntry)
             (message : string)
| JsonStatus (status : string) (document_count : nat)
             (vector_store_loaded : bool)
| JsonHealth (search_system_set : bool) (document_count : nat).

Record Response : Type := mkResponse {
  status_code : nat;
  body : Body
}.

(** ** [initialize_search_system] (lines 70-110) *)

Definition load_or_build (c : Collab) (docs : list Doc) : M unit :=
  try_except
    (call CallLoad (store_load c))
    (fun _ =>
       match docs with
       | [] => mret tt
       | _ :: _ => call (CallBuildFromDocuments docs)
                        (store_build_from_documents c docs)
       end).

Definition initialize_search_system (c : Collab) : M bool :=
  try_except
    (rag ← new_object;
     call CallRAGSearch (RAGSearch_new c) ;;
     set_search_system rag ;;
     fs ← read files;
     docs ← call CallLoadAllDocuments (load_all_documents c fs);
     store ← new_object;
     call CallFaissVectorStore (FaissVectorStore_new c) ;;
     set_vector_store store ;;
     load_or_build c docs ;;
     mret true)
    (fun _ => mret false).

(** ** [process_and_index_document] (lines 112-162) *)

Definition process_and_index_document (c : Collab) (filepath filename : string)
  : M (bool * string) :=
  try_except
    (text ← extract_text_from_pdf filepath;
     if bool_decide (text = "")
     then mret (false, "No text could be extracted from PDF")
     else
       let doc := mkDoc text filename filepath "upload" in
       lift (Document_new c doc) ;;
       vs ← read vector_store;
       if bool_decide (is_Some vs) && store_has_add_documents c
       then
         call (CallAddDocuments [doc]) (store_add_documents c [doc]) ;;
         mret (true, "Document processed and added to vector store successfully")
       else
         fs ← read files;
         docs ← call CallLoadAllDocuments (load_all_documents c fs);
         match vs with
         | None =>
             raise "'NoneType' object has no attribute 'build_from_documents'"
         | Some _ =>
             call (CallBuildFromDocuments docs)
                  (store_build_from_documents c docs) ;;
             mret (true, "Document processed and index rebuilt successfully")
         end)
    (fun e => mret (false, e)).

(** ** [search] (lines 174-221) *)

Definition Form : Type := list (string * string).

(** [request.form.get(key, default)]: the first value sent for [key]. *)
Fixpoint form_get (form : Form) (key default : string) : string :=
  match form with
  | [] => default
  | (k, v) :: rest => if bool_decide (k = key) then v else form_get rest key default
  end.

(** Lines 186-191. *)
Definition top_k_of_form (c : Collab) (form : Form) : Z :=
  match Py.int (int_of_non_ascii c) (form_get form "top_k" "5") with
  | Some top_k => Z.max 1 (Z.min 20 top_k)
  | None => 5
  end.

Definition search_and_render (c : Collab) (query : string) (top_k : Z)
  : M Response :=
  if has_search_and_summarize c
  then summary ← call (CallSearchAndSummarize query top_k)
                      (search_and_summarize c query top_k);
       mret (mkResponse 200 (Results query summary))
  else mret (mkResponse 200 (Results query
         ("Search functionality not fully implemented. Your query was: '"
          ++ query ++ "'"))).

Definition search (c : Collab) (form : Form) : M Response :=
  let query := Py.strip (form_get form "query" "") in
  if bool_decide (query = "")
  then mret (mkResponse 200 (Results query "Please enter a valid query."))
  else
    let top_k := top_k_of_form c form in
    try_except
      (ss ← read search_system;
       match ss with
       | None =>
           success ← initialize_search_system c;
           if success : bool then search_and_render c query top_k
           else mret (mkResponse 200 (Results query
                  "Search system is not initialized properly. Please check the logs."))
       | Some _ => search_and_render c query top_k
       end)
      (fun e => mret (mkResponse 200 (Results query ("An error occurred: " ++ e)))).

(** ** [upload_files] (lines 223-294) *)

Definition unique_filename (c : Collab) (f : FileStorage) : string :=
  let filename := secure_filename c (file_name f) in
  let '(name, ext) := Py.splitext filename in
  name ++ "_" ++ file_stamp f ++ ext.

Definition upload_path (c : Collab) (f : FileStorage) : string :=
  Py.path_join UPLOAD_FOLDER (unique_filename c f).

(** A [FileStorage] is true when its name is not empty. *)
Definition accepted (f : FileStorage) : bool :=
  negb (bool_decide (file_name f = "")) && allowed_file (file_name f).

(** The body of the loop of lines 238-274. *)
Definition upload_one (c : Collab) (f : FileStorage)
           (acc : list UploadedEntry * list FailedEntry)
  : M (list UploadedEntry * list FailedEntry) :=
  let '(uploaded_files, failed_files) := acc in
  if accepted f
  then
    let filepath := upload_path c f in
    save f filepath ;;
    '(success, message) ← process_and_index_document c filepath (unique_filename c f);
    if success : bool
    then mret (uploaded_files ++
                 [mkUploaded (file_name f) (unique_filename c f) "success" message],
               failed_files)
    else
      still ← os_path_exists filepath;
      (if still : bool then os_remove c filepath else mret tt) ;;
      mret (uploaded_files, failed_files ++ [mkFailed (file_name f) message])
  else
    mret (uploaded_files,
          failed_files ++ [mkFailed (file_name f)
                             "Invalid file type. Only PDF files are allowed."]).

Fixpoint upload_loop (c : Collab) (fs : list FileStorage)
         (acc : list UploadedEntry * list FailedEntry)
  : M (list UploadedEntry * list FailedEntry) :=
  match fs with
  | [] => mret acc
  | f :: rest => acc' ← upload_one c f acc; upload_loop c rest acc'
  end.

Definition upload_message (uploaded : list UploadedEntry)
           (failed : list FailedEntry) : string :=
  "Successfully uploaded " ++ Py.str_of_nat (length uploaded)
  ++ " files. Failed: " ++ Py.str_of_nat (length failed).

(** [None] when the request has no field [files]. *)
Definition upload_files (c : Collab) (field : option (list FileStorage))
  : M Response :=
  try_except
    (match field with
     | None => mret (mkResponse 400 (JsonError "No files provided"))
     | Some fs =>
         match fs with
         | [] => mret (mkResponse 400 (JsonError "No files selected"))
         | first :: _ =>
             if bool_decide (file_name first = "")
             then mret (mkResponse 400 (JsonError "No files selected"))
             else
               '(uploaded_files, failed_files) ← upload_loop c fs ([], []);
               match uploaded_files with
               | [] => mret tt
               | _ :: _ => initialize_search_system c ;; mret tt
               end ;;
               mret (mkResponse 200
                       (JsonUpload uploaded_files failed_files
                          (upload_message uploaded_files failed_files)))
         end
     end)
    (fun e => mret (mkResponse 500 (JsonError e))).

(** ** [delete_document] (lines 321-340) *)

Definition delete_document (c : Collab) (filename : string) : M Response :=
  try_except
    (let safe_filename := secure_filename c filename in
     let filepath := Py.path_join UPLOAD_FOLDER safe_filename in
     present ← os_path_exists filepath;
     if present : bool
     then
       os_remove c filepath ;;
       initialize_search_system c ;;
       mret (mkResponse 200 (JsonSuccess "Document deleted successfully"))
     else mret (mkResponse 404 (JsonError "Document not found")))
    (fun e => mret (mkResponse 500 (JsonError e))).

(** ** [reindex_documents] (lines 358-369) *)

Definition reindex_documents (c : Collab) : M Response :=
  try_except
    (success ← initialize_search_system c;
     if success : bool
     then mret (mkResponse 200 (JsonSuccess "Reindexing completed successfully"))
     else mret (mkResponse 500 (JsonError "Reindexing failed")))
    (fun e => mret (mkResponse 500 (JsonError e))).

(** ** [search_system_status] (lines 371-391) and [health] (393-404) *)

Definition pdf_files (names : list string) : list string :=
  List.filter (fun f => Py.endswith f ".pdf") names.

(** [len(pdf_files)] for the folder as it is. *)
Definition document_count (fs : gmap string string) : nat :=
  length (pdf_files (listing fs)).

Definition search_system_status (c : Collab) : M Response :=
  try_except
    (names ← os_listdir c;
     ss ← read search_system;
     vs ← read vector_store;
     mret (mkResponse 200
             (JsonStatus
                (if bool_decide (ss = None) then "not_initialized" else "initialized")
                (length (pdf_files names))
                (negb (bool_decide (vs = None))))))
    (fun e => mret (mkResponse 500 (JsonStatusError e))).

Definition health (c : Collab) : M Response :=
  names ← os_listdir c;
  ss ← read search_system;
  mret (mkResponse 200
          (JsonHealth (negb (bool_decide (ss = None))) (length (pdf_files names)))).

(** ** Requests and runs *)

Inductive Request : Type :=
| PostSearch (form : Form)
| PostUpload (field : option (list FileStorage))
| DeleteDocument (filename : string)
| PostReindex
| GetStatus
| GetHealth.

Definition handler (c : Collab) (r : Request) : M Response :=
  match r with
  | PostSearch form => search c form
  | PostUpload field => upload_files c field
  | DeleteDocument filename => delete_document c filename
  | PostReindex => reindex_documents c
  | GetStatus => search_system_status c
  | GetHealth => health c
  end.

(** The world after a sequence of requests, each served with the
    collaborators as they behave at that moment. *)
Definition serve (w : World) (cr : Collab * Request) : World :=
  snd (handler (fst cr) (snd cr) w).

Definition run (w : World) (trace : list (Collab * Request)) : World :=
  fold_left serve trace w.

(** The process right after import: no handle, nothing called yet. *)
Definition initial_world (fs : gmap string string) : World :=
  mkWorld None None fs [].

(** ** Auxiliary notions for the properties of the built-ins *)




(** ** Notions used to state the properties *)

(** The world [w] after the calls [evs], nothing else changed. *)
Definition logged (w : World) (evs : list Event) : World :=
  mkWorld (search_system w) (vector_store w) (files w) (log w ++ evs).

(** The world after a removal from the folder. *)
Definition removed (path : string) (w : World) : World :=
  mkWorld (search_system w) (vector_store w) (delete path (files w))
          (log w ++ [FileRemove path]).

(** The store handle is never set without the search handle. *)
Definition store_needs_search (w : World) : Prop :=
  is_Some (vector_store w) -> is_Some (search_system w).

(** The calls one run of [initialize_search_system] makes when the
    folder holds [fs], read off lines 74-110: each step is reached only
    if the one before returned, and the index is built only after
    [load] raised, for a document list that is not empty. *)
Definition init_calls (c : Collab) (fs : gmap string string) : list Event :=
  CallRAGSearch ::
  match RAGSearch_new c with
  | Raises _ => []
  | Returns _ =>
      CallLoadAllDocuments ::
      match load_all_documents c fs with
      | Raises _ => []
      | Returns docs =>
          CallFaissVectorStore ::
          match FaissVectorStore_new c with
          | Raises _ => []
          | Returns _ =>
              CallLoad ::
              match store_load c, docs with
              | Raises _, _ :: _ => [CallBuildFromDocuments docs]
              | _, _ => []
              end
          end
      end
  end.

(** A request that changed the document set and says so. *)
Definition successful_mutation (r : Request) (resp : Response) : Prop :=
  match r, body resp with
  | DeleteDocument _, JsonSuccess _ => True
  | PostUpload _, JsonUpload (_ :: _) _ _ => True
  | _, _ => False
  end.

(** The entry of the success list for an uploaded file. *)
Definition reported (c : Collab) (f : FileStorage) (uploaded : list UploadedEntry)
  : Prop :=
  exists message,
    mkUploaded (file_name f) (unique_filename c f) "success" message ∈ uploaded.

(** Where the file of a success entry was saved. *)
Definition saved_path (e : UploadedEntry) : string :=
  Py.path_join UPLOAD_FOLDER (up_saved_as e).

(** The two handles. *)
Definition handles (w : World) : option handle * option handle :=
  (search_system w, vector_store w).

Definition invalid_type_entry (f : FileStorage) : FailedEntry :=
  mkFailed (file_name f) "Invalid file type. Only PDF files are allowed.".

(** A name of one path component. *)
Definition plain_name (n : string) : Prop :=
  n <> "" /\ existsb (Ascii.eqb "/"%char) (list_ascii_of_string n) = false.

(** ** Environments

    In every environment below but [locked_files] each removal of a
    file works; in all of them [int] is only ever asked about ASCII
    text, so that the value of [int_of_non_ascii] is never looked at. *)

(** The stand-ins of lines 17-33, in force when the import of the
    [src] package fails: the two classes exist, [load_all_documents] and
    [Document] do not, and the store has no [build_from_documents]. *)
Definition placeholder_collab : Collab := {|
  RAGSearch_new := Returns tt;
  load_all_documents := fun _ => Raises "name 'load_all_documents' is not defined";
  FaissVectorStore_new := Returns tt;
  store_load := Returns tt;
  store_build_from_documents := fun _ =>
    Raises "'FaissVectorStore' object has no attribute 'build_from_documents'";
  store_has_add_documents := true;
  store_add_documents := fun _ => Returns tt;
  Document_new := fun _ => Returns tt;
  has_search_and_summarize := true;
  search_and_summarize := fun query _ =>
    Returns ("This is a simulated response for: '" ++ query ++ "'")%string;
  secure_filename := Werkzeug.secure_filename;
  os_listdir_error := None;
  os_remove_error := fun _ => None;
  int_of_non_ascii := fun _ => None
|}.

(** The same process when the upload folder cannot be listed. *)
Definition unreadable_folder : Collab := {|
  RAGSearch_new := RAGSearch_new placeholder_collab;
  load_all_documents := load_all_documents placeholder_collab;
  FaissVectorStore_new := FaissVectorStore_new placeholder_collab;
  store_load := store_load placeholder_collab;
  store_build_from_documents := store_build_from_documents placeholder_collab;
  store_has_add_documents := store_has_add_documents placeholder_collab;
  store_add_documents := store_add_documents placeholder_collab;
  Document_new := Document_new placeholder_collab;
  has_search_and_summarize := has_search_and_summarize placeholder_collab;
  search_and_summarize := search_and_summarize placeholder_collab;
  secure_filename := secure_filename placeholder_collab;
  os_listdir_error := Some "[Errno 13] Permission denied: 'data/sample_data'";
  os_remove_error := os_remove_error placeholder_collab;
  int_of_non_ascii := int_of_non_ascii placeholder_collab
|}.

(** Working modules over a folder whose files cannot be removed. *)
Definition locked_files : Collab := {|
  RAGSearch_new := Returns tt;
  load_all_documents := fun fs => Returns [];
  FaissVectorStore_new := Returns tt;
  store_load := Returns tt;
  store_build_from_documents := fun _ => Returns tt;
  store_has_add_documents := true;
  store_add_documents := fun _ => Returns tt;
  Document_new := fun _ => Returns tt;
  has_search_and_summarize := true;
  search_and_summarize := fun query _ => Returns query;
  secure_filename := Werkzeug.secure_filename;
  os_listdir_error := None;
  os_remove_error :=
    fun path => Some ("[Errno 13] Permission denied: '" ++ path ++ "'")%string;
  int_of_non_ascii := fun _ => None
|}.

(** One document per regular file. *)
Definition docs_of (fs : gmap string string) : list Doc :=
  map (fun p => mkDoc (default "" (fs !! p)) p p "folder") (elements (dom fs)).

(** Working modules.  [index_on_disk] tells whether [load] finds a saved
    index. *)
Definition working_collab (index_on_disk : bool) : Collab := {|
  RAGSearch_new := Returns tt;
  load_all_documents := fun fs => Returns (docs_of fs);
  FaissVectorStore_new := Returns tt;
  store_load := if index_on_disk then Returns tt else Raises "no index file";
  store_build_from_documents := fun _ => Returns tt;
  store_has_add_documents := true;
  store_add_documents := fun _ => Returns tt;
  Document_new := fun _ => Returns tt;
  has_search_and_summarize := true;
  search_and_summarize := fun query _ => Returns ("summary of " ++ query)%string;
  secure_filename := Werkzeug.secure_filename;
  os_listdir_error := None;
  os_remove_error := fun _ => None;
  int_of_non_ascii := fun _ => None
|}.

(** ** Sample requests *)


(** The no-break space U+00A0, which [str.strip] removes. *)
Definition no_break_space : string :=
  string_of_list_ascii (map ascii_of_nat [194; 160]%nat).

Definition stamp : string := "20250101_120000".

(** A PDF with text, a scanned PDF of the same name without any, a text
    file, and the part a browser sends for an empty file input. *)
Definition a_pdf : FileStorage := mkFile "a.pdf" "retrieval augmented" (Returns tt) stamp.
Definition scan_pdf : FileStorage := mkFile "a.pdf" "" (Returns tt) stamp.
Definition b_scan_pdf : FileStorage := mkFile "b.pdf" "" (Returns tt) stamp.
Definition notes_txt : FileStorage := mkFile "notes.txt" "notes" (Returns tt) stamp.
Definition empty_part : FileStorage := mkFile "" "" (Returns tt) stamp.

(** A PDF whose extension is written in capitals. *)
Definition upper_pdf : FileStorage :=
  mkFile "A.PDF" "retrieval augmented" (Returns tt) stamp.

(** A folder with one report, and one that already holds the file an
    upload of [a_pdf] is saved as. *)
Definition one_report : gmap string string :=
  {[ "data/sample_data/report.pdf" := "annual report" ]}.
Definition two_reports : gmap string string :=
  {[ "data/sample_data/report.pdf" := "annual report";
     "data/sample_data/minutes.pdf" := "minutes of the meeting" ]}.
Definition same_second : gmap string string :=
  {[ "data/sample_data/a_20250101_120000.pdf" := "first upload" ]}.

(** The process after a first initialization with working modules. *)
Definition ready (fs : gmap string string) : World :=
  run (initial_world fs) [(working_collab true, PostReindex)].

(** ** [list_documents] (lines 296-319) *)

(** What [os.stat] tells about a file: its size and its modification
    time as [strftime('%Y-%m-%d %H:%M')] prints it. *)
Record Stat : Type := mkStat {
  st_size : nat;
  st_date : string
}.

(** One entry of the answer (the rounded size in MB is left out). *)
Record DocumentEntry : Type := mkEntry {
  de_name : string;
  de_size_bytes : nat;
  de_date : string;
  de_path : string
}.

Inductive DocumentsBody : Type :=
| Documents (documents : list DocumentEntry)
| DocumentsError (error : string).

(** The loop of lines 301-311. *)
Fixpoint stat_documents (os_stat : string -> outcome Stat) (names : list string)
  : M (list DocumentEntry) :=
  match names with
  | [] => mret []
  | filename :: rest =>
      if Py.endswith filename ".pdf"
      then
        let filepath := Py.path_join UPLOAD_FOLDER filename in
        st ← lift (os_stat filepath);
        documents ← stat_documents os_stat rest;
        mret (mkEntry filename (st_size st) (st_date st) filepath :: documents)
      else stat_documents os_stat rest
  end.

(** [documents.sort(key=lambda x: x['date'], reverse=True)]: the stable
    sort by decreasing date, as an insertion sort; entries of one date
    keep their order. *)
Fixpoint insert_by_date (e : DocumentEntry) (l : list DocumentEntry)
  : list DocumentEntry :=
  match l with
  | [] => [e]
  | y :: r =>
      if String.leb (de_date y) (de_date e) then e :: l
      else y :: insert_by_date e r
  end.

Definition sort_newest_first (l : list DocumentEntry) : list DocumentEntry :=
  foldr insert_by_date [] l.

Definition list_documents (c : Collab) (os_stat : string -> outcome Stat)
  : M (nat * DocumentsBody) :=
  try_except
    (names ← os_listdir c;
     documents ← stat_documents os_stat names;
     mret (200%nat, Documents (sort_newest_first documents)))
    (fun e => mret (500%nat, DocumentsError e)).

(** ** [view_document] (lines 342-356) *)

(** The answer is the response object Flask's [send_file] made, or a
    JSON error with its status. *)
Inductive ViewResponse (R : Type) : Type :=
| Sent (response : R)
| ViewError (status : nat) (error : string).
Arguments Sent {R} response.
Arguments ViewError {R} status error.

(** [send_file(filepath, as_attachment=False, download_name=...)] is
    Flask's: it resolves a relative path against the root path of the
    application, which need not be the working directory that
    [os.path.exists] looks in, and it raises when it finds no file there.
    Its outcome for a path and a download name is a parameter of the
    handler, and its response is kept as it is. *)
Definition view_document {R : Type} (c : Collab)
           (send_file : string -> string -> outcome R) (filename : string)
  : M (ViewResponse R) :=
  try_except
    (let safe_filename := secure_filename c filename in
     let filepath := Py.path_join UPLOAD_FOLDER safe_filename in
     present ← os_path_exists filepath;
     if present : bool
     then response ← lift (send_file filepath safe_filename); mret (Sent response)
     else mret (ViewError 404 "Document not found"))
    (fun e => mret (ViewError 500 e)).

(** ** Notions for the properties of the listing *)

(** Decreasing dates. *)
Definition newest_first (l : list DocumentEntry) : Prop :=
  Sorted (fun a b => String.leb (de_date b) (de_date a) = true) l.

(** What [os.stat] says about the two reports. *)
Definition stat_of_sample (path : string) : outcome Stat :=
  if bool_decide (path = "data/sample_data/report.pdf")
  then Returns (mkStat 2048 "2025-01-02 09:30")
  else if bool_decide (path = "data/sample_data/minutes.pdf")
  then Returns (mkStat 1024 "2025-03-01 17:05")
  else Raises ("[Errno 2] No such file or directory: '" ++ path ++ "'").
(** * Properties *)

(** ** Python built-ins *)



















(** ** The monad *)

Ltac unfold_monad :=
  cbv [mbind M_bind mret M_ret try_except call read raise lift set_search_system
       set_vector_store set_files new_object] in *;
  cbn [files log search_system vector_store fst snd] in *.

Ltac unfold_init :=
  unfold initialize_search_system, load_or_build in *; unfold_monad.

Lemma logged_nil (w : World) : logged w [] = w.
Proof. destruct w. unfold logged. simpl. by rewrite app_nil_r. Qed.

Lemma logged_logged (w : World) (a b : list Event) :
  logged (logged w a) b = logged w (a ++ b).
Proof. unfold logged. simpl. by rewrite app_assoc. Qed.

(** ** [initialize_search_system] *)

Lemma initialize_files (c : Collab) (w : World) :
  files (snd (initialize_search_system c w)) = files w.
Proof. unfold_init. repeat case_match; simplify_eq/=; done. Qed.

Lemma initialize_returns (c : Collab) (w : World) :
  exists b, fst (initialize_search_system c w) = Returns b.
Proof. unfold_init. repeat case_match; simplify_eq/=; eauto. Qed.

Lemma initialize_log (c : Collab) (w : World) :
  log (snd (initialize_search_system c w)) = log w ++ init_calls c (files w).
Proof.
  unfold_init. unfold init_calls.
  repeat case_match; simplify_eq/=; rewrite <- ?app_assoc; done.
Qed.

(** The handles are assigned one after the other and never cleared. *)
Lemma initialize_search_handle (c : Collab) (w : World) :
  search_system (snd (initialize_search_system c w))
  = match RAGSearch_new c with
    | Returns _ => Some (Obj (length (log w)))
    | Raises _ => search_system w
    end.
Proof. unfold_init. repeat case_match; simplify_eq/=; done. Qed.

Lemma initialize_store_handle (c : Collab) (w : World) :
  vector_store (snd (initialize_search_system c w))
  = match RAGSearch_new c, load_all_documents c (files w), FaissVectorStore_new c with
    | Returns _, Returns _, Returns _ => Some (Obj (length (log w) + 2))
    | _, _, _ => vector_store w
    end.
Proof.
  unfold_init. repeat case_match; simplify_eq/=;
    rewrite ?length_app; simpl; try done; do 2 f_equal; lia.
Qed.

Lemma initialize_success (c : Collab) (w : World) :
  fst (initialize_search_system c w) = Returns true ->
  is_Some (search_system (snd (initialize_search_system c w)))
  /\ is_Some (vector_store (snd (initialize_search_system c w))).
Proof. unfold_init. repeat case_match; simplify_eq/=; intros; by simplify_eq. Qed.

Lemma initialize_store_needs_search (c : Collab) (w : World) :
  store_needs_search w -> store_needs_search (snd (initialize_search_system c w)).
Proof.
  unfold store_needs_search. rewrite initialize_search_handle, initialize_store_handle.
  repeat case_match; eauto; by intros ? [? [=]].
Qed.

Lemma initialize_keeps_search (c : Collab) (w : World) :
  is_Some (search_system w) ->
  is_Some (search_system (snd (initialize_search_system c w))).
Proof. rewrite initialize_search_handle. case_match; eauto. Qed.

(** ** [process_and_index_document] *)

Ltac not_in_events Hin :=
  cbn in Hin;
  repeat (apply elem_of_cons in Hin as [?|Hin]; [discriminate|]);
  by apply elem_of_nil in Hin.

(** It always returns, touches neither the handles nor the files, and
    succeeds only when the store handle is set. *)
Lemma process_spec (c : Collab) (filepath filename : string) (w : World) :
  exists b msg evs,
    process_and_index_document c filepath filename w = (Returns (b, msg), logged w evs)
    /\ (forall o p, FileSave o p ∉ evs)
    /\ (b = true -> is_Some (vector_store w)).
Proof.
  unfold process_and_index_document, extract_text_from_pdf. unfold_monad.
  repeat case_match; simplify_eq/=; rewrite <- ?app_assoc;
  lazymatch goal with
  | |- exists b msg evs, (Returns (?b0, ?m0), mkWorld _ _ _ (log _ ++ ?e)) = _ /\ _ =>
      exists b0, m0, e
  | |- exists b msg evs, (Returns (?b0, ?m0), _) = _ /\ _ =>
      exists b0, m0, []; rewrite logged_nil
  end;
  (split; [unfold logged; congruence |]);
  (split; [intros o p Hin; not_in_events Hin | intros; simplify_eq; eauto]).
  match goal with
  | H : bool_decide (is_Some _) && _ = true |- _ =>
      apply andb_true_iff in H as [H%bool_decide_eq_true _]; exact H
  end.
Qed.

(** ** One iteration of the upload loop *)

Lemma upload_one_rejected (c : Collab) (f : FileStorage)
      (up : list UploadedEntry) (fl : list FailedEntry) (w : World) :
  accepted f = false ->
  upload_one c f (up, fl) w = (Returns (up, fl ++ [invalid_type_entry f]), w).
Proof. intros H. unfold upload_one. by rewrite H. Qed.

Lemma upload_one_accepted (c : Collab) (f : FileStorage)
      (up : list UploadedEntry) (fl : list FailedEntry) (w : World) :
  accepted f = true ->
  (exists e evs w',
     upload_one c f (up, fl) w = (Raises e, w')
     /\ search_system w' = search_system w
     /\ vector_store w' = vector_store w
     /\ log w' = log w ++ FileSave (file_name f) (upload_path c f) :: evs
     /\ (forall o q, FileSave o q ∉ evs))
  \/ (exists up' fl' evs w',
        upload_one c f (up, fl) w = (Returns (up', fl'), w')
        /\ search_system w' = search_system w
        /\ vector_store w' = vector_store w
        /\ log w' = log w ++ FileSave (file_name f) (upload_path c f) :: evs
        /\ (forall o q, FileSave o q ∉ evs)
        /\ ((exists msg,
               up' = up ++ [mkUploaded (file_name f) (unique_filename c f) "success" msg]
               /\ fl' = fl
               /\ dom (files w') = {[upload_path c f]} ∪ dom (files w)
               /\ is_Some (vector_store w))
            \/ (exists msg,
                  up' = up /\ fl' = fl ++ [mkFailed (file_name f) msg]
                  /\ dom (files w') = dom (files w) ∖ {[upload_path c f]}))).
Proof.
  intros Hacc. unfold upload_one, save, os_path_exists, os_remove. rewrite Hacc.
  unfold_monad. destruct (file_save f) as [[]|e].
  2: { left. eexists e, [], _. split; [reflexivity|]. cbn [files log search_system vector_store].
       split_and!; try done. by intros o q ?%elem_of_nil. }
  match goal with
  | |- context [process_and_index_document c ?p ?n ?w1] =>
      destruct (process_spec c p n w1) as (b & msg & evs & -> & Hsave & Hvs)
  end.
  unfold logged in *. cbn [files log search_system vector_store fst snd] in *.
  destruct b.
  - right. eexists _, _, evs, _. split; [reflexivity|].
    cbn [files log search_system vector_store]. rewrite <- app_assoc.
    split_and!; try done. left. exists msg. split_and!; try done.
    + by rewrite dom_insert_L.
    + by apply Hvs.
  - cbn [files log search_system vector_store].
    rewrite lookup_insert_eq. rewrite bool_decide_eq_true_2 by eauto.
    cbn [orb files log search_system vector_store].
    rewrite lookup_insert_eq. cbn [files log search_system vector_store].
    assert (Hevs : forall o q, FileSave o q ∉ evs ++ [FileRemove (upload_path c f)]).
    { intros o q [Hin|Hin]%elem_of_app; [by apply Hsave in Hin|].
      apply list_elem_of_singleton in Hin. discriminate. }
    destruct (os_remove_error c (upload_path c f)) as [e|].
    + left. eexists e, (evs ++ [FileRemove (upload_path c f)]), _.
      split; [reflexivity|]. cbn [files log search_system vector_store].
      rewrite <- !app_assoc. by split_and!.
    + right. eexists _, _, (evs ++ [FileRemove (upload_path c f)]), _.
      split; [reflexivity|].
      cbn [files log search_system vector_store]. rewrite <- !app_assoc.
      split_and!; try done. right. exists msg. split_and!; try done.
      rewrite dom_delete_L, dom_insert_L.
      apply set_eq. intros q.
      rewrite !elem_of_difference, elem_of_union, elem_of_singleton. tauto.
Qed.

(** Whatever happens to one file, the handles stay and a file is written
    only for an accepted file, under its own name. *)
Lemma upload_one_frame (c : Collab) (f : FileStorage)
      (acc : list UploadedEntry * list FailedEntry) (w : World) :
  search_system (snd (upload_one c f acc w)) = search_system w
  /\ vector_store (snd (upload_one c f acc w)) = vector_store w
  /\ exists evs,
       log (snd (upload_one c f acc w)) = log w ++ evs
       /\ forall o q, FileSave o q ∈ evs ->
            accepted f = true /\ o = file_name f /\ q = upload_path c f.
Proof.
  destruct acc as [up fl]. destruct (accepted f) eqn:Hacc.
  - destruct (upload_one_accepted c f up fl w Hacc)
      as [(e & evs & w' & -> & Hs & Hv & Hl & Hno)
         | (up' & fl' & evs & w' & -> & Hs & Hv & Hl & Hno & _)].
    + cbn [snd]. repeat split; try done. eexists. split; [exact Hl|].
      intros o q [?|Hin]%elem_of_cons; [by simplify_eq | by apply Hno in Hin].
    + cbn [snd]. repeat split; try done. eexists. split; [exact Hl|].
      intros o q [?|Hin]%elem_of_cons; [by simplify_eq | by apply Hno in Hin].
  - rewrite upload_one_rejected by done. cbn [snd]. repeat split; try done.
    exists []. split; [by rewrite app_nil_r | by intros o q ?%elem_of_nil].
Qed.

(** ** The upload loop *)

Lemma upload_loop_frame (c : Collab) (fs : list FileStorage)
      (acc : list UploadedEntry * list FailedEntry) (w : World) :
  search_system (snd (upload_loop c fs acc w)) = search_system w
  /\ vector_store (snd (upload_loop c fs acc w)) = vector_store w
  /\ exists evs,
       log (snd (upload_loop c fs acc w)) = log w ++ evs
       /\ forall o q, FileSave o q ∈ evs ->
            exists f, f ∈ fs /\ accepted f = true
                      /\ o = file_name f /\ q = upload_path c f.
Proof.
  revert acc w. induction fs as [|f fs IH]; intros acc w.
  - cbn. repeat split; try done. exists []. split; [by rewrite app_nil_r|].
    by intros o q ?%elem_of_nil.
  - cbn [upload_loop]. unfold mbind, M_bind.
    destruct (upload_one_frame c f acc w) as (Hs & Hv & evs & Hl & Hev).
    destruct (upload_one c f acc w) as [[acc'|e] w1]; cbn [snd] in *.
    + destruct (IH acc' w1) as (Hs' & Hv' & evs' & Hl' & Hev').
      rewrite Hs', Hv', Hl', Hs, Hv, Hl. repeat split; try done.
      exists (evs ++ evs'). split; [by rewrite app_assoc|].
      intros o q [Hin|Hin]%elem_of_app.
      * exists f. split; [left|]. by apply Hev.
      * destruct (Hev' o q Hin) as (g & ? & ?). exists g. split; [by right | done].
    + repeat split; try done. exists evs. split; [done|].
      intros o q Hin. exists f. split; [left|]. by apply Hev.
Qed.

(** What a completed loop leaves behind. *)
Lemma upload_loop_spec (c : Collab) (fs : list FileStorage)
      (up : list UploadedEntry) (fl : list FailedEntry) (w : World)
      (up' : list UploadedEntry) (fl' : list FailedEntry) (w' : World) :
  upload_loop c fs (up, fl) w = (Returns (up', fl'), w') ->
  exists ups fls,
    up' = up ++ ups /\ fl' = fl ++ fls
    /\ Forall (fun e => exists f msg, f ∈ fs /\ accepted f = true
                 /\ e = mkUploaded (file_name f) (unique_filename c f) "success" msg) ups
    /\ (forall f, f ∈ fs -> accepted f = false -> invalid_type_entry f ∈ fls)
    /\ (ups <> [] -> is_Some (vector_store w))
    /\ (NoDup (upload_path c <$> List.filter accepted fs) ->
        forall q, q ∈ dom (files w') <->
          q ∈ (saved_path <$> ups)
          \/ (q ∈ dom (files w) /\ q ∉ (upload_path c <$> List.filter accepted fs))).
Proof.
  revert up fl w. induction fs as [|f fs IH]; intros up fl w Hrun.
  - cbn [upload_loop] in Hrun. unfold mret, M_ret in Hrun. simplify_eq.
    exists [], []. rewrite !app_nil_r.
    split_and!; try done.
    + by intros f ?%elem_of_nil.
    + intros _ q. cbn. set_solver.
  - cbn [upload_loop] in Hrun. unfold mbind, M_bind in Hrun.
    destruct (accepted f) eqn:Hacc.
    + destruct (upload_one_accepted c f up fl w Hacc)
        as [(e & evs & w1 & He & _)
           | (up1 & fl1 & evs & w1 & He & Hs & Hv & Hl & Hno & Hcase)];
        rewrite He in Hrun; [done|].
      destruct (IH _ _ _ Hrun) as (ups & fls & -> & -> & Hall & Hrej & Hstore & Hdom).
      assert (Hall' : Forall (fun e => exists g msg, g ∈ f :: fs /\ accepted g = true
                 /\ e = mkUploaded (file_name g) (unique_filename c g) "success" msg) ups).
      { eapply Forall_impl; [exact Hall|]. intros e (g & msg & ? & ?).
        exists g, msg. split; [by right | done]. }
      assert (Hsub : forall q, q ∈ (saved_path <$> ups) ->
                q ∈ (upload_path c <$> List.filter accepted fs)).
      { intros q (e & -> & He')%list_elem_of_fmap.
        rewrite Forall_forall in Hall. destruct (Hall e He') as (g & msg & Hg & Hga & ->).
        apply list_elem_of_fmap. exists g. split; [done|].
        apply list_elem_of_In, filter_In. by rewrite <- list_elem_of_In. }
      assert (Hrej' : forall g, g ∈ f :: fs -> accepted g = false ->
                invalid_type_entry g ∈ fls).
      { intros g [->|Hg]%elem_of_cons Hga; [congruence | by apply Hrej]. }
      destruct Hcase as [(msg & -> & -> & Hd & Hvs) | (msg & -> & -> & Hd)].
      * exists (mkUploaded (file_name f) (unique_filename c f) "success" msg :: ups), fls.
        rewrite <- app_assoc. split_and!; try done.
        -- constructor; [|done]. exists f, msg. split; [left | done].
        -- cbn [List.filter]. rewrite Hacc. cbn [fmap list_fmap].
           intros [Hnotin Hnd]%NoDup_cons q. rewrite (Hdom Hnd q), Hd.
           change (saved_path {| up_original := file_name f;
                                 up_saved_as := unique_filename c f;
                                 up_status := "success"; up_message := msg |})
             with (upload_path c f).
           specialize (Hsub q).
           rewrite !elem_of_cons, elem_of_union, elem_of_singleton.
           destruct (decide (q = upload_path c f)) as [-> | Hne]; [|tauto].
           split; [intros _; left; by left | intros _; right; split; [by left | done]].
      * exists ups, (mkFailed (file_name f) msg :: fls).
        rewrite <- app_assoc. split_and!; try done.
        -- intros g Hg Hga. right. by apply Hrej'.
        -- rewrite <- Hv. done.
        -- cbn [List.filter]. rewrite Hacc. cbn [fmap list_fmap].
           intros [Hnotin Hnd]%NoDup_cons q. rewrite (Hdom Hnd q), Hd.
           specialize (Hsub q).
           rewrite !elem_of_cons, elem_of_difference, elem_of_singleton.
           destruct (decide (q = upload_path c f)) as [-> | Hne]; tauto.
    + rewrite upload_one_rejected in Hrun by done.
      destruct (IH _ _ _ Hrun) as (ups & fls & -> & -> & Hall & Hrej & Hstore & Hdom).
      exists ups, (invalid_type_entry f :: fls). rewrite <- app_assoc.
      split_and!; try done.
      * eapply Forall_impl; [exact Hall|]. intros e (g & msg & ? & ?).
        exists g, msg. split; [by right | done].
      * intros g [->|Hg]%elem_of_cons Hga; [left | right; by apply Hrej].
      * cbn [List.filter]. rewrite Hacc. done.
Qed.

(** ** Handlers *)

Lemma try_except_returns {A : Type} (body : M A) (h : string -> A) (w : World) :
  exists a, fst (try_except body (fun e => mret (h e)) w) = Returns a.
Proof.
  unfold try_except, mret, M_ret. destruct (body w) as [[a|e] w']; eauto.
Qed.

(** A completed upload ran the loop and then, if a file succeeded,
    [initialize_search_system]. *)
Lemma upload_files_completed (c : Collab) (fs : list FileStorage) (w : World)
      (up : list UploadedEntry) (fl : list FailedEntry) (msg : string) (w' : World) :
  upload_files c (Some fs) w = (Returns (mkResponse 200 (JsonUpload up fl msg)), w') ->
  exists w1,
    upload_loop c fs ([], []) w = (Returns (up, fl), w1)
    /\ w' = match up with
            | [] => w1
            | _ :: _ => snd (initialize_search_system c w1)
            end.
Proof.
  unfold upload_files. unfold_monad. intros H.
  destruct fs as [|f0 fs]; [done|]. case_bool_decide; [done|].
  destruct (upload_loop c (f0 :: fs) ([], []) w) as [[[up1 fl1]|e] w1]; [|done].
  destruct up1 as [|e1 up1].
  - simplify_eq. by eexists.
  - destruct (initialize_search_system c w1) as [[b|e] w2] eqn:Hi; [|done].
    simplify_eq. eexists. split; [reflexivity | by rewrite Hi].
Qed.

(** The world after any upload request: the loop, then possibly one
    initialization. *)
Lemma upload_files_world (c : Collab) (field : option (list FileStorage)) (w : World) :
  snd (upload_files c field w) = w
  \/ exists fs w1,
       field = Some fs /\ w1 = snd (upload_loop c fs ([], []) w)
       /\ (snd (upload_files c field w) = w1
           \/ snd (upload_files c field w) = snd (initialize_search_system c w1)).
Proof.
  unfold upload_files. unfold_monad.
  destruct field as [fs|]; [|by left]. destruct fs as [|f0 fs]; [by left|].
  case_bool_decide; [by left|]. right.
  exists (f0 :: fs), (snd (upload_loop c (f0 :: fs) ([], []) w)).
  split; [done|]. split; [reflexivity|].
  destruct (upload_loop c (f0 :: fs) ([], []) w) as [[[up1 fl1]|e] w1]; [|by left].
  destruct up1 as [|e1 up1]; [by left|]. right. cbn [snd].
  destruct (initialize_search_system c w1) as [[b|e] w2]; done.
Qed.

Lemma delete_document_cases (c : Collab) (filename : string) (w : World) :
  let path := Py.path_join UPLOAD_FOLDER (secure_filename c filename) in
  match files w !! path with
  | Some _ =>
      match os_remove_error c path with
      | None =>
          delete_document c filename w
          = (Returns (mkResponse 200 (JsonSuccess "Document deleted successfully")),
             snd (initialize_search_system c (removed path w)))
      | Some e =>
          delete_document c filename w
          = (Returns (mkResponse 500 (JsonError e)), logged w [FileRemove path])
      end
  | None =>
      if bool_decide (path = Py.path_join UPLOAD_FOLDER "")
      then delete_document c filename w
           = (Returns (mkResponse 500
                (JsonError ("[Errno 21] Is a directory: '" ++ path ++ "'"))),
              logged w [FileRemove path])
      else delete_document c filename w
           = (Returns (mkResponse 404 (JsonError "Document not found")), w)
  end.
Proof.
  intros path. unfold delete_document, os_path_exists, os_remove. unfold_monad.
  fold path. destruct (files w !! path) as [x|] eqn:Hp.
  - rewrite bool_decide_eq_true_2 by eauto. cbn [orb]. rewrite Hp.
    destruct (os_remove_error c path) as [e|]; [done|].
    change (mkWorld (search_system w) (vector_store w) (delete path (files w))
              (log w ++ [FileRemove path])) with (removed path w).
    destruct (initialize_returns c (removed path w)) as [b Hb].
    destruct (initialize_search_system c (removed path w)) as [[b'|e] w2]; done.
  - rewrite (bool_decide_eq_false_2 (is_Some None)) by apply is_Some_None. cbn [orb].
    case_bool_decide; [|done]. by rewrite Hp.
Qed.

(** * The claims *)

(** ** The result size of a search *)







Example top_k_examples :
  let c := placeholder_collab in
  top_k_of_form c [("top_k", "999")] = 20
  /\ top_k_of_form c [("top_k", "0")] = 1
  /\ top_k_of_form c [("top_k", "-7")] = 1
  /\ top_k_of_form c [("top_k", " 12 ")] = 12
  /\ top_k_of_form c [("top_k", "abc")] = 5
  /\ top_k_of_form c [("top_k", "3.5")] = 5
  /\ top_k_of_form c [("top_k", "")] = 5
  /\ top_k_of_form c [("query", "x")] = 5.
Proof. vm_compute. repeat split; reflexivity. Qed.

Lemma init_calls_no_search (c : Collab) (fs : gmap string string) (q : string) (k : Z) :
  CallSearchAndSummarize q k ∉ init_calls c fs.
Proof. unfold init_calls. intros Hin. repeat case_match; not_in_events Hin. Qed.

(** The value computed from the form is the one handed to
    [search_and_summarize]. *)
Lemma search_passes_top_k (c : Collab) (form : Form) (w : World) :
  exists evs,
    log (snd (search c form w)) = log w ++ evs
    /\ forall q k, CallSearchAndSummarize q k ∈ evs ->
         q = Py.strip (form_get form "query" "") /\ k = top_k_of_form c form.
Proof.
  unfold search. case_bool_decide.
  { exists []. cbn. rewrite app_nil_r. split; [done|]. by intros q k ?%elem_of_nil. }
  unfold search_and_render. unfold_monad.
  destruct (search_system w) as [h|].
  - destruct (has_search_and_summarize c).
    + exists [CallSearchAndSummarize (Py.strip (form_get form "query" ""))
                (top_k_of_form c form)].
      split; [by destruct (search_and_summarize c _ _)|].
      intros q k Hin%list_elem_of_singleton. by simplify_eq.
    + exists []. cbn. rewrite app_nil_r. split; [done|]. by intros q k ?%elem_of_nil.
  - pose proof (initialize_log c w) as Hl.
    destruct (initialize_search_system c w) as [[[]|e] w1]; cbn [snd] in Hl.
    + destruct (has_search_and_summarize c).
      * exists (init_calls c (files w)
                ++ [CallSearchAndSummarize (Py.strip (form_get form "query" ""))
                      (top_k_of_form c form)]).
        split.
        { destruct (search_and_summarize c _ _); cbn [snd log]; rewrite Hl;
            by rewrite app_assoc. }
        intros q k [Hin|Hin%list_elem_of_singleton]%elem_of_app; [|by simplify_eq].
        by apply init_calls_no_search in Hin.
      * exists (init_calls c (files w)). split; [done|].
        intros q k Hin. by apply init_calls_no_search in Hin.
    + exists (init_calls c (files w)). split; [done|].
      intros q k Hin. by apply init_calls_no_search in Hin.
    + exists (init_calls c (files w)). split; [done|].
      intros q k Hin. by apply init_calls_no_search in Hin.
Qed.

(** ** Empty queries *)

Lemma search_blank_query (c : Collab) (form : Form) (w : World) :
  Py.strip (form_get form "query" "") = "" ->
  search c form w
  = (Returns (mkResponse 200 (Results "" "Please enter a valid query.")), w).
Proof. intros H. unfold search. rewrite H. reflexivity. Qed.

(** A query of white space only, the no-break space included, is
    blank. *)
Example search_no_break_space :
  let form := [("query", " " ++ no_break_space ++ " ")%string; ("top_k", "3")] in
  search (working_collab true) form (ready one_report)
  = (Returns (mkResponse 200 (Results "" "Please enter a valid query.")),
     ready one_report).
Proof. apply search_blank_query. vm_compute. reflexivity. Qed.

(** C8.  A search whose [query] field is empty or missing answers with
    the request for a valid query and leaves the world as it was: neither
    handle changes and no collaborator is called. *)
Theorem search_empty_query (c : Collab) (form : Form) (w : World) :
  form_get form "query" "" = "" ->
  search c form w
  = (Returns (mkResponse 200 (Results "" "Please enter a valid query.")), w).
Proof. intros H. apply search_blank_query. by rewrite H. Qed.

Lemma search_empty_query_witness :
  search placeholder_collab [("top_k", "3")] (initial_world ∅)
  = (Returns (mkResponse 200 (Results "" "Please enter a valid query.")),
     initial_world ∅).
Proof. apply (search_empty_query placeholder_collab [("top_k", "3")]). reflexivity. Defined.

(** ** Deleting a document that is not there *)

Lemma path_join_empty (s : string) :
  Py.path_join UPLOAD_FOLDER s = Py.path_join UPLOAD_FOLDER "" -> s = "".
Proof.
  destruct s as [|a s]; [done|].
  destruct a as [[] [] [] [] [] [] [] []]; cbn; discriminate.
Qed.

(** When the sanitised name names no file of the upload folder, a delete
    request changes neither the handles nor the files and starts no
    initialization: if the name is not empty the answer is 404 and the
    world is untouched; if it is empty the path is the folder itself,
    [os.remove] raises and the answer is 500. *)
Lemma delete_missing_document (c : Collab) (filename : string) (w : World) :
  let safe_filename := secure_filename c filename in
  let filepath := Py.path_join UPLOAD_FOLDER safe_filename in
  files w !! filepath = None ->
  (safe_filename <> "" ->
   delete_document c filename w
   = (Returns (mkResponse 404 (JsonError "Document not found")), w))
  /\ (safe_filename = "" ->
      delete_document c filename w
      = (Returns (mkResponse 500
           (JsonError "[Errno 21] Is a directory: 'data/sample_data/'")),
         logged w [FileRemove "data/sample_data/"])).
Proof.
  intros safe path Hnone. pose proof (delete_document_cases c filename w) as H.
  cbv zeta in H. fold safe path in H. rewrite Hnone in H. split.
  - intros Hne. rewrite bool_decide_eq_false_2 in H; [done|].
    intros Heq. by apply path_join_empty in Heq.
  - intros Hempty. unfold path in *. rewrite Hempty in *.
    rewrite bool_decide_eq_true_2 in H by done. exact H.
Qed.

Lemma delete_missing_document_witness :
  delete_document placeholder_collab "missing.pdf" (ready one_report)
  = (Returns (mkResponse 404 (JsonError "Document not found")), ready one_report).
Proof.
  apply (delete_missing_document placeholder_collab "missing.pdf" (ready one_report)).
  - vm_compute. reflexivity.
  - vm_compute. discriminate.
Defined.

(** C6, at the failing input.  A delete request for the name [_], which the sanitiser empties,
    names no file of the upload folder; the handler takes the folder
    itself for the document, calls [os.remove] on it and answers 500
    with the text of the exception, where a missing document is to be
    answered with 404.  The handles and the files are as before. *)
Theorem delete_underscore_is_500 :
  files (ready one_report)
    !! Py.path_join UPLOAD_FOLDER (secure_filename placeholder_collab "_") = None
  /\ fst (delete_document placeholder_collab "_" (ready one_report))
     = Returns (mkResponse 500
         (JsonError "[Errno 21] Is a directory: 'data/sample_data/'"))
  /\ fst (delete_document placeholder_collab "_" (ready one_report))
     <> Returns (mkResponse 404 (JsonError "Document not found"))
  /\ log (snd (delete_document placeholder_collab "_" (ready one_report)))
     = log (ready one_report) ++ [FileRemove "data/sample_data/"]
  /\ handles (snd (delete_document placeholder_collab "_" (ready one_report)))
     = handles (ready one_report)
  /\ files (snd (delete_document placeholder_collab "_" (ready one_report)))
     = files (ready one_report).
Proof.
  split_and!; [vm_compute; reflexivity .. | vm_compute; discriminate | | |];
    vm_compute; reflexivity.
Qed.

(** ** Uploads of a file type that is not allowed *)

Lemma accepted_allowed (f : FileStorage) : accepted f = allowed_file (file_name f).
Proof.
  unfold accepted. case_bool_decide as Hn; [|done]. by rewrite Hn.
Qed.

Lemma init_calls_no_save (c : Collab) (fs : gmap string string) (o q : string) :
  FileSave o q ∉ init_calls c fs.
Proof. unfold init_calls. intros Hin. repeat case_match; not_in_events Hin. Qed.

(** Every file an upload request writes belongs to an accepted part. *)
Lemma upload_files_saves (c : Collab) (field : option (list FileStorage)) (w : World) :
  exists evs,
    log (snd (upload_files c field w)) = log w ++ evs
    /\ forall o q, FileSave o q ∈ evs ->
         exists fs f, field = Some fs /\ f ∈ fs /\ accepted f = true
                      /\ o = file_name f /\ q = upload_path c f.
Proof.
  destruct (upload_files_world c field w) as [-> | (fs & w1 & -> & Hw1 & Hcase)].
  { exists []. rewrite app_nil_r. split; [done|]. by intros o q ?%elem_of_nil. }
  destruct (upload_loop_frame c fs ([], []) w) as (_ & _ & evs & Hl & Hev).
  rewrite <- Hw1 in Hl. destruct Hcase as [-> | ->].
  - exists evs. split; [done|]. intros o q Hin.
    destruct (Hev o q Hin) as (f & ?). by exists fs, f.
  - exists (evs ++ init_calls c (files w1)). split.
    + by rewrite initialize_log, Hl, app_assoc.
    + intros o q [Hin|Hin]%elem_of_app; [|by apply init_calls_no_save in Hin].
      destruct (Hev o q Hin) as (f & ?). by exists fs, f.
Qed.

(** C7, amended.  For a part of an upload request whose name has no
    allowed extension, no file is written, whatever the request comes to;
    and whenever the request is answered with the two lists (status 200),
    the part is in the list of failures as an invalid file type. *)
Theorem disallowed_file_rejected (c : Collab) (fs : list FileStorage)
        (f : FileStorage) (w : World) :
  f ∈ fs ->
  allowed_file (file_name f) = false ->
  (exists evs,
     log (snd (upload_files c (Some fs) w)) = log w ++ evs
     /\ forall q, FileSave (file_name f) q ∉ evs)
  /\ (forall up fl msg w',
        upload_files c (Some fs) w
        = (Returns (mkResponse 200 (JsonUpload up fl msg)), w') ->
        invalid_type_entry f ∈ fl).
Proof.
  intros Hin Hext. split.
  - destruct (upload_files_saves c (Some fs) w) as (evs & Hl & Hev).
    exists evs. split; [done|]. intros q Hq.
    destruct (Hev _ _ Hq) as (fs' & g & _ & _ & Hg & Hname & _).
    rewrite accepted_allowed, <- Hname in Hg. congruence.
  - intros up fl msg w' Hrun.
    destruct (upload_files_completed _ _ _ _ _ _ _ Hrun) as (w1 & Hloop & _).
    destruct (upload_loop_spec _ _ _ _ _ _ _ _ Hloop)
      as (ups & fls & _ & -> & _ & Hrej & _).
    apply Hrej; [done|]. by rewrite accepted_allowed.
Qed.

Lemma disallowed_file_rejected_witness :
  exists up fl msg w',
    upload_files (working_collab true) (Some [a_pdf; notes_txt]) (ready ∅)
    = (Returns (mkResponse 200 (JsonUpload up fl msg)), w')
    /\ invalid_type_entry notes_txt ∈ fl.
Proof.
  eexists _, _, _, _. split; [vm_compute; reflexivity|].
  refine (proj2 (disallowed_file_rejected (working_collab true) [a_pdf; notes_txt]
                   notes_txt (ready ∅) _ _) _ _ _ _ _).
  - right. left.
  - reflexivity.
  - vm_compute. reflexivity.
Defined.

(** The claim as stated fails when the first part has no file name: the
    request is answered with 400 before any part is looked at, so the text
    file is in no list of failures. *)
Lemma unselected_first_part_hides_rejection :
  allowed_file (file_name notes_txt) = false
  /\ upload_files (working_collab true) (Some [empty_part; notes_txt]) (ready ∅)
     = (Returns (mkResponse 400 (JsonError "No files selected")), ready ∅).
Proof. split; reflexivity. Qed.

(** ** A saved file exists exactly when it is reported *)

Lemma upload_path_saved_path (c : Collab) (f : FileStorage) (msg : string) :
  saved_path (mkUploaded (file_name f) (unique_filename c f) "success" msg)
  = upload_path c f.
Proof. reflexivity. Qed.

Lemma NoDup_fmap_inj {A B : Type} (g : A -> B) (l : list A) (x y : A) :
  NoDup (g <$> l) -> x ∈ l -> y ∈ l -> g x = g y -> x = y.
Proof.
  induction l as [|a l IH]; intros Hnd Hx Hy Heq; [by apply elem_of_nil in Hx|].
  cbn in Hnd. apply NoDup_cons in Hnd as [Ha Hnd].
  apply elem_of_cons in Hx as [->|Hx]; apply elem_of_cons in Hy as [->|Hy].
  - done.
  - exfalso. apply Ha. rewrite Heq. by apply list_elem_of_fmap_2.
  - exfalso. apply Ha. rewrite <- Heq. by apply list_elem_of_fmap_2.
  - by apply IH.
Qed.

(** When an upload request is answered with the two lists and the
    accepted parts were saved under pairwise distinct paths, the file
    saved for an accepted part exists afterwards exactly when the part is
    in the list of successes. *)
Lemma saved_iff_reported (c : Collab) (fs : list FileStorage) (w : World)
        (up : list UploadedEntry) (fl : list FailedEntry) (msg : string)
        (w' : World) (f : FileStorage) :
  upload_files c (Some fs) w = (Returns (mkResponse 200 (JsonUpload up fl msg)), w') ->
  NoDup (upload_path c <$> List.filter accepted fs) ->
  f ∈ fs ->
  accepted f = true ->
  is_Some (files w' !! upload_path c f) <-> reported c f up.
Proof.
  intros Hrun Hnd Hin Hacc.
  destruct (upload_files_completed _ _ _ _ _ _ _ Hrun) as (w1 & Hloop & Hw').
  assert (Hfiles : files w' = files w1).
  { rewrite Hw'. destruct up; [done | apply initialize_files]. }
  destruct (upload_loop_spec _ _ _ _ _ _ _ _ Hloop)
    as (ups & fls & Hup & _ & Hall & _ & _ & Hdom).
  cbn in Hup. subst ups. specialize (Hdom Hnd (upload_path c f)).
  assert (Hmine : upload_path c f ∈ (upload_path c <$> List.filter accepted fs)).
  { apply list_elem_of_fmap_2, list_elem_of_In, filter_In.
    by rewrite <- list_elem_of_In. }
  rewrite Hfiles, <- elem_of_dom, Hdom. split.
  - intros [Hsaved | [_ Hnot]]; [|done].
    apply list_elem_of_fmap in Hsaved as (e & Hpath & He).
    rewrite Forall_forall in Hall.
    destruct (Hall e He) as (g & m & Hg & Hgacc & ->).
    rewrite upload_path_saved_path in Hpath.
    assert (f = g) as <-.
    { apply (NoDup_fmap_inj (upload_path c) (List.filter accepted fs)); try done;
        apply list_elem_of_In, filter_In; by rewrite <- list_elem_of_In. }
    by exists m.
  - intros [m Hm]. left. rewrite <- (upload_path_saved_path c f m).
    by apply list_elem_of_fmap_2.
Qed.

Lemma saved_iff_reported_witness :
  is_Some (files (snd (upload_files (working_collab true)
                         (Some [a_pdf; b_scan_pdf; notes_txt]) (ready ∅)))
             !! upload_path (working_collab true) a_pdf)
  <-> reported (working_collab true) a_pdf
        [mkUploaded "a.pdf" "a_20250101_120000.pdf" "success"
           "Document processed and added to vector store successfully"].
Proof.
  eapply (saved_iff_reported (working_collab true) [a_pdf; b_scan_pdf; notes_txt]
            (ready ∅)).
  - vm_compute. reflexivity.
  - apply (bool_decide_unpack _). vm_compute. exact I.
  - left.
  - reflexivity.
Defined.

(** C10, at the failing input.  Two parts of one request that carry the same name are stamped
    within the same second and saved under the same path, the stamp that
    is to avoid duplicates notwithstanding: the scan without text
    overwrites the file of the first part and is then removed, so the
    first part is reported as a success and no file of it exists after
    the request. *)
Theorem same_name_success_without_file :
  let c := working_collab true in
  let '(r, w') := upload_files c (Some [a_pdf; scan_pdf]) (ready ∅) in
  r = Returns (mkResponse 200
        (JsonUpload
           [mkUploaded "a.pdf" "a_20250101_120000.pdf" "success"
              "Document processed and added to vector store successfully"]
           [mkFailed "a.pdf" "No text could be extracted from PDF"]
           "Successfully uploaded 1 files. Failed: 1"))
  /\ upload_path c a_pdf = "data/sample_data/a_20250101_120000.pdf"
  /\ upload_path c scan_pdf = upload_path c a_pdf
  /\ reported c a_pdf
       [mkUploaded "a.pdf" "a_20250101_120000.pdf" "success"
          "Document processed and added to vector store successfully"]
  /\ files w' !! upload_path c a_pdf = None.
Proof.
  intros c. set (x := upload_files c _ _). vm_compute in x. subst x.
  cbv beta iota.
  split_and!; [vm_compute; reflexivity .. | | vm_compute; reflexivity].
  eexists. vm_compute. left.
Qed.

(** ** The two handles along a run *)

Lemma store_needs_search_handles (w w' : World) :
  handles w' = handles w -> store_needs_search w -> store_needs_search w'.
Proof. unfold handles, store_needs_search. intros [= -> ->]. done. Qed.

(** A handler leaves the handles alone or ends with one run of
    [initialize_search_system] on a world that has the handles it found. *)
Lemma handler_handles (c : Collab) (r : Request) (w : World) :
  handles (snd (handler c r w)) = handles w
  \/ exists w1,
       handles w1 = handles w
       /\ handles (snd (handler c r w)) = handles (snd (initialize_search_system c w1)).
Proof.
  destruct r as [form | field | filename | | | ]; cbn [handler].
  - unfold search. case_bool_decide; [by left|].
    unfold search_and_render. unfold_monad. destruct (search_system w) as [h|].
    + left. destruct (has_search_and_summarize c); [|done].
      by destruct (search_and_summarize c _ _).
    + right. exists w. split; [done|].
      destruct (initialize_search_system c w) as [[[]|e] w1]; try done.
      destruct (has_search_and_summarize c); [|done].
      by destruct (search_and_summarize c _ _).
  - destruct (upload_files_world c field w) as [-> | (fs & w1 & -> & Hw1 & Hcase)];
      [by left|].
    destruct (upload_loop_frame c fs ([], []) w) as (Hs & Hv & _).
    rewrite <- Hw1 in Hs, Hv.
    destruct Hcase as [-> | ->].
    + left. unfold handles. by rewrite Hs, Hv.
    + right. exists w1. split; [|done]. unfold handles. by rewrite Hs, Hv.
  - pose proof (delete_document_cases c filename w) as H. cbv zeta in H.
    destruct (files w !! _).
    + destruct (os_remove_error c _).
      * left. by rewrite H.
      * right. eexists. split; [|by rewrite H]. done.
    + left. case_bool_decide; by rewrite H.
  - right. exists w. split; [done|]. unfold reindex_documents. unfold_monad.
    by destruct (initialize_search_system c w) as [[[]|e] w1].
  - left. unfold search_system_status, os_listdir. unfold_monad.
    by destruct (os_listdir_error c).
  - left. unfold health, os_listdir. unfold_monad.
    by destruct (os_listdir_error c).
Qed.

Lemma serve_store_needs_search (w : World) (cr : Collab * Request) :
  store_needs_search w -> store_needs_search (serve w cr).
Proof.
  intros Hw. unfold serve.
  destruct (handler_handles (fst cr) (snd cr) w) as [Heq | (w1 & Hw1 & Heq)].
  - by apply (store_needs_search_handles w).
  - apply (store_needs_search_handles (snd (initialize_search_system (fst cr) w1)));
      [done|].
    apply initialize_store_needs_search. by apply (store_needs_search_handles w).
Qed.

Lemma run_invariant (P : World -> Prop) (w : World) (trace : list (Collab * Request)) :
  (forall w cr, P w -> P (serve w cr)) -> P w -> P (run w trace).
Proof.
  intros Hstep. revert w. induction trace as [|cr trace IH]; intros w Hw; [done|].
  cbn. apply IH. by apply Hstep.
Qed.

(** In every world the process can reach, a store handle comes with a
    search handle. *)
Lemma run_store_needs_search (fs : gmap string string)
      (trace : list (Collab * Request)) :
  store_needs_search (run (initial_world fs) trace).
Proof.
  apply run_invariant; [apply serve_store_needs_search|]. by intros [? [=]].
Qed.

(** Once set, the search handle is never cleared. *)
Lemma serve_keeps_search_system (w : World) (cr : Collab * Request) :
  is_Some (search_system w) -> is_Some (search_system (serve w cr)).
Proof.
  intros Hw. unfold serve.
  destruct (handler_handles (fst cr) (snd cr) w) as [Heq | (w1 & Hw1 & Heq)];
    unfold handles in *.
  - injection Heq as Hs _. by rewrite Hs.
  - injection Heq as Hs _. injection Hw1 as Hs1 _. rewrite Hs.
    apply initialize_keeps_search. by rewrite Hs1.
Qed.

(** ** Counting the documents *)

Lemma filter_length_perm {A : Type} (p : A -> bool) (l l' : list A) :
  l ≡ₚ l' -> length (List.filter p l) = length (List.filter p l').
Proof.
  induction 1 as [|x l l' _ IH|x y l|l l' l'' _ IH1 _ IH2]; cbn.
  - done.
  - destruct (p x); cbn; congruence.
  - destruct (p x), (p y); done.
  - congruence.
Qed.

Lemma list_of_string_app (s1 s2 : string) :
  list_ascii_of_string (s1 ++ s2)
  = list_ascii_of_string s1 ++ list_ascii_of_string s2.
Proof.
  induction s1 as [|a s1 IH]; [done|].
  change (list_ascii_of_string (String a s1 ++ s2))
    with (a :: list_ascii_of_string (s1 ++ s2)).
  by rewrite IH.
Qed.

Lemma startswith_chars_app (p r : list ascii) : Py.startswith_chars p (p ++ r) = true.
Proof. induction p as [|a p IH]; cbn; [done | by rewrite Ascii.eqb_refl]. Qed.

Lemma child_name_join (n : string) :
  plain_name n -> child_name (Py.path_join UPLOAD_FOLDER n) = Some n.
Proof.
  intros [Hne Hplain]. destruct n as [|a n]; [done|].
  assert (Hpath : Py.path_join UPLOAD_FOLDER (String a n)
                  = (UPLOAD_FOLDER ++ "/" ++ String a n)%string).
  { cbn in Hplain. apply orb_false_elim in Hplain as [Ha _].
    destruct a as [[] [] [] [] [] [] [] []]; try done. }
  rewrite Hpath. unfold child_name.
  rewrite !list_of_string_app, app_assoc, startswith_chars_app.
  rewrite length_app, drop_app_length', Hplain by (by rewrite length_app).
  cbn [list_ascii_of_string].
  change (a :: list_ascii_of_string n) with (list_ascii_of_string (String a n)).
  by rewrite string_of_list_ascii_of_string.
Qed.

Lemma document_count_new (fs fs' : gmap string string) (n : string) :
  dom fs' = {[Py.path_join UPLOAD_FOLDER n]} ∪ dom fs ->
  fs !! Py.path_join UPLOAD_FOLDER n = None ->
  plain_name n ->
  Py.endswith n ".pdf" = true ->
  document_count fs' = S (document_count fs).
Proof.
  intros Hdom Hnew Hplain Hpdf. unfold document_count, listing, pdf_files.
  rewrite Hdom.
  rewrite (filter_length_perm _ _
             (omap child_name (Py.path_join UPLOAD_FOLDER n :: elements (dom fs)))).
  - cbn [omap list_omap]. rewrite child_name_join by done. cbn [List.filter].
    by rewrite Hpdf.
  - apply omap_Permutation, elements_union_singleton. by apply not_elem_of_dom.
Qed.

Lemma search_system_status_ok (c : Collab) (w : World) :
  os_listdir_error c = None ->
  search_system_status c w
  = (Returns (mkResponse 200
       (JsonStatus
          (if bool_decide (search_system w = None) then "not_initialized"
           else "initialized")
          (document_count (files w))
          (negb (bool_decide (vector_store w = None))))), w).
Proof.
  intros H. unfold search_system_status, os_listdir. rewrite H. reflexivity.
Qed.

(** In a world the process can reach, after an upload request with
    exactly one success, where the accepted parts were saved under
    pairwise distinct paths that did not exist before and the success was
    saved under a plain name ending in [.pdf], the status request reports
    one document more than before and the status [initialized]. *)
Lemma upload_adds_one_document
        (fs0 : gmap string string) (trace : list (Collab * Request))
        (c c1 c2 : Collab) (fs : list FileStorage) (e : UploadedEntry)
        (fl : list FailedEntry) (msg : string) (w' : World) :
  let w := run (initial_world fs0) trace in
  upload_files c (Some fs) w = (Returns (mkResponse 200 (JsonUpload [e] fl msg)), w') ->
  NoDup (upload_path c <$> List.filter accepted fs) ->
  (forall f, f ∈ fs -> accepted f = true -> files w !! upload_path c f = None) ->
  plain_name (up_saved_as e) ->
  Py.endswith (up_saved_as e) ".pdf" = true ->
  os_listdir_error c1 = None ->
  os_listdir_error c2 = None ->
  exists status n loaded loaded',
    fst (search_system_status c1 w)
    = Returns (mkResponse 200 (JsonStatus status n loaded))
    /\ fst (search_system_status c2 w')
       = Returns (mkResponse 200 (JsonStatus "initialized" (S n) loaded')).
Proof.
  intros w Hrun Hnd Hfresh Hplain Hpdf Hc1 Hc2.
  destruct (upload_files_completed _ _ _ _ _ _ _ Hrun) as (w1 & Hloop & Hw').
  destruct (upload_loop_spec _ _ _ _ _ _ _ _ Hloop)
    as (ups & fls & Hup & _ & Hall & _ & Hstore & Hdom).
  cbn in Hup. subst ups.
  destruct (upload_loop_frame c fs ([], []) w) as (Hs & Hv & _).
  rewrite Hloop in Hs, Hv. cbn [snd] in Hs, Hv.
  apply Forall_cons in Hall as [(f & m & Hf & Hfacc & He) _].
  (* the handles *)
  assert (Hsearch : is_Some (search_system w')).
  { rewrite Hw'. apply initialize_keeps_search. rewrite Hs.
    apply (run_store_needs_search fs0 trace). by apply Hstore. }
  (* the folder *)
  assert (Hfiles : dom (files w') = {[saved_path e]} ∪ dom (files w)).
  { rewrite Hw', initialize_files. apply set_eq. intros q.
    rewrite (Hdom Hnd q). cbn [fmap list_fmap].
    rewrite elem_of_union, elem_of_singleton, list_elem_of_singleton.
    split; [intros [?|[? _]]; eauto|]. intros [?|Hq]; [by left|]. right.
    split; [done|]. intros (g & -> & Hg)%list_elem_of_fmap.
    apply list_elem_of_In, filter_In in Hg as [Hg Hgacc].
    apply list_elem_of_In in Hg. apply elem_of_dom in Hq as [x Hx].
    rewrite (Hfresh g Hg Hgacc) in Hx. done. }
  assert (Hnew : files w !! saved_path e = None).
  { rewrite He, upload_path_saved_path. by apply Hfresh. }
  rewrite !search_system_status_ok by done. cbn [fst].
  rewrite (document_count_new (files w) (files w') (up_saved_as e)) by done.
  rewrite (bool_decide_eq_false_2 (search_system w' = None))
    by (intros Hn; rewrite Hn in Hsearch; by destruct Hsearch).
  by eexists _, _, _, _.
Qed.

Lemma upload_adds_one_document_witness :
  exists status n loaded loaded',
    fst (search_system_status placeholder_collab (ready one_report))
    = Returns (mkResponse 200 (JsonStatus status n loaded))
    /\ fst (search_system_status placeholder_collab
              (snd (upload_files (working_collab true)
                      (Some [a_pdf; b_scan_pdf; notes_txt]) (ready one_report))))
       = Returns (mkResponse 200 (JsonStatus "initialized" (S n) loaded')).
Proof.
  eapply (upload_adds_one_document one_report [(working_collab true, PostReindex)]
            (working_collab true) placeholder_collab placeholder_collab
            [a_pdf; b_scan_pdf; notes_txt]).
  - vm_compute. reflexivity.
  - apply (bool_decide_unpack _). vm_compute. exact I.
  - intros f Hf Hacc.
    repeat (apply elem_of_cons in Hf as [-> | Hf]; [by vm_compute|]).
    by apply elem_of_nil in Hf.
  - split; [by vm_compute | by vm_compute].
  - by vm_compute.
  - reflexivity.
  - reflexivity.
Defined.

(** C5, at the failing input.  A second upload of [a.pdf] within the same second gets the
    stamp of the first, the stamp that is to avoid duplicates
    notwithstanding, and is saved over the file of the first: exactly one
    file is processed with success, and the status request reports one
    document before the upload and one after it. *)
Theorem same_second_upload_keeps_count :
  let c := working_collab true in
  let w := ready same_second in
  let '(r, w') := upload_files c (Some [a_pdf]) w in
  r = Returns (mkResponse 200
        (JsonUpload
           [mkUploaded "a.pdf" "a_20250101_120000.pdf" "success"
              "Document processed and added to vector store successfully"]
           [] "Successfully uploaded 1 files. Failed: 0"))
  /\ fst (search_system_status c w)
     = Returns (mkResponse 200 (JsonStatus "initialized" 1 true))
  /\ fst (search_system_status c w')
     = Returns (mkResponse 200 (JsonStatus "initialized" 1 true))
  /\ files w !! upload_path c a_pdf = Some "first upload"
  /\ files w' = {[ upload_path c a_pdf := "retrieval augmented" ]}.
Proof.
  intros c w. set (x := upload_files c _ _). vm_compute in x. subst x.
  cbv beta iota. split_and!; vm_compute; reflexivity.
Qed.

(** The extension is compared without regard to case when a part is
    accepted and with regard to case when the documents are counted: the
    upload of [A.PDF] is processed with success, its file is kept, and the
    count stays where it was. *)
Lemma upper_case_upload_keeps_count :
  let c := working_collab true in
  let w := ready one_report in
  let '(r, w') := upload_files c (Some [upper_pdf]) w in
  r = Returns (mkResponse 200
        (JsonUpload
           [mkUploaded "A.PDF" "A_20250101_120000.PDF" "success"
              "Document processed and added to vector store successfully"]
           [] "Successfully uploaded 1 files. Failed: 0"))
  /\ fst (search_system_status c w)
     = Returns (mkResponse 200 (JsonStatus "initialized" 1 true))
  /\ fst (search_system_status c w')
     = Returns (mkResponse 200 (JsonStatus "initialized" 1 true))
  /\ files w' !! "data/sample_data/A_20250101_120000.PDF" = Some "retrieval augmented".
Proof.
  intros c w. set (x := upload_files c _ _). vm_compute in x. subst x.
  cbv beta iota. split_and!; vm_compute; reflexivity.
Qed.

(** ** What a change of the document set triggers *)

Lemma init_calls_build (c : Collab) (fs : gmap string string) (docs : list Doc) :
  CallBuildFromDocuments docs ∈ init_calls c fs
  <-> RAGSearch_new c = Returns tt
      /\ load_all_documents c fs = Returns docs
      /\ FaissVectorStore_new c = Returns tt
      /\ (exists e, store_load c = Raises e)
      /\ docs <> [].
Proof.
  unfold init_calls. split.
  - intros Hin.
    destruct (RAGSearch_new c) as [[]|]; [|not_in_events Hin].
    destruct (load_all_documents c fs) as [ds|]; [|not_in_events Hin].
    destruct (FaissVectorStore_new c) as [[]|]; [|not_in_events Hin].
    destruct (store_load c) as [[]|e]; [not_in_events Hin|].
    destruct ds as [|d ds]; [not_in_events Hin|].
    repeat (apply elem_of_cons in Hin as [Hin|Hin]; [discriminate|]).
    apply list_elem_of_singleton in Hin. simplify_eq. split_and!; eauto.
  - intros (-> & -> & -> & [e ->] & Hne). destruct docs as [|d docs]; [done|].
    do 4 right. left.
Qed.

Lemma upload_files_lists (c : Collab) (field : option (list FileStorage)) (w : World)
      (code : nat) (up : list UploadedEntry) (fl : list FailedEntry) (msg : string)
      (w' : World) :
  upload_files c field w = (Returns (mkResponse code (JsonUpload up fl msg)), w') ->
  exists fs, field = Some fs /\ code = 200%nat.
Proof.
  unfold upload_files. unfold_monad. intros H.
  destruct field as [fs|]; [|done]. exists fs. split; [done|].
  destruct fs as [|f0 fs]; [done|]. case_bool_decide; [done|].
  destruct (upload_loop c (f0 :: fs) ([], []) w) as [[[up1 fl1]|e] w1]; [|done].
  destruct up1 as [|e1 up1]; [by simplify_eq|].
  destruct (initialize_search_system c w1) as [[b|e] w2]; by simplify_eq.
Qed.

(** Every upload with at least one success and every delete that
    removed a file ends with one run of [initialize_search_system] on the
    folder as the change left it: the calls of that run are the last ones
    made.  That run builds the index from the documents it enumerated
    exactly when the handles were made, the enumeration returned, [load]
    raised and there is a document; when [load] returns, nothing is
    built. *)
Lemma mutation_reinitializes (c : Collab) (r : Request) (w : World)
        (resp : Response) (w' : World) :
  handler c r w = (Returns resp, w') ->
  successful_mutation r resp ->
  (exists evs, log w' = log w ++ evs ++ init_calls c (files w'))
  /\ (forall docs,
        CallBuildFromDocuments docs ∈ init_calls c (files w')
        <-> RAGSearch_new c = Returns tt
            /\ load_all_documents c (files w') = Returns docs
            /\ FaissVectorStore_new c = Returns tt
            /\ (exists e, store_load c = Raises e)
            /\ docs <> []).
Proof.
  intros Hrun Hmut. split; [|intros docs; apply init_calls_build].
  destruct resp as [code b].
  destruct r as [form | field | filename | | | ]; cbn in Hmut, Hrun;
    destruct b as [| | | m | up fl m | |]; try done.
  - destruct up as [|e up]; [done|].
    destruct (upload_files_lists _ _ _ _ _ _ _ _ Hrun) as (fs & -> & ->).
    destruct (upload_files_completed _ _ _ _ _ _ _ Hrun) as (w1 & Hloop & ->).
    destruct (upload_loop_frame c fs ([], []) w) as (_ & _ & evs & Hl & _).
    rewrite Hloop in Hl. cbn [snd] in Hl. exists evs.
    by rewrite initialize_log, initialize_files, Hl, app_assoc.
  - pose proof (delete_document_cases c filename w) as H. cbv zeta in H.
    destruct (files w !! _).
    + destruct (os_remove_error c _); rewrite H in Hrun; simplify_eq.
      eexists [_].
      rewrite initialize_log, initialize_files. cbn [removed log files].
      by rewrite <- app_assoc.
    + case_bool_decide; rewrite H in Hrun; simplify_eq.
Qed.

Lemma mutation_reinitializes_witness :
  let c := working_collab false in
  let w' := snd (delete_document c "report.pdf" (ready two_reports)) in
  (exists evs, log w' = log (ready two_reports) ++ evs ++ init_calls c (files w'))
  /\ (forall docs,
        CallBuildFromDocuments docs ∈ init_calls c (files w')
        <-> RAGSearch_new c = Returns tt
            /\ load_all_documents c (files w') = Returns docs
            /\ FaissVectorStore_new c = Returns tt
            /\ (exists e, store_load c = Raises e)
            /\ docs <> []).
Proof.
  eapply (mutation_reinitializes (working_collab false) (DeleteDocument "report.pdf")
            (ready two_reports)).
  - vm_compute. reflexivity.
  - exact I.
Defined.

(** C4, at the failing input.  With a saved index on disk a delete succeeds, the folder still
    holds a document, and the initialization that is to rebuild the
    search system without the deleted document loads the index as it was
    saved: [build_from_documents] is not called, in this request or
    before it. *)
Theorem delete_with_saved_index_builds_nothing :
  let c := working_collab true in
  let '(r, w') := delete_document c "report.pdf" (ready two_reports) in
  r = Returns (mkResponse 200 (JsonSuccess "Document deleted successfully"))
  /\ dom (files w') = {[ "data/sample_data/minutes.pdf" ]}
  /\ log w' = log (ready two_reports)
              ++ [FileRemove "data/sample_data/report.pdf"; CallRAGSearch;
                  CallLoadAllDocuments; CallFaissVectorStore; CallLoad]
  /\ (forall docs, CallBuildFromDocuments docs ∉ log w').
Proof.
  intros c. set (x := delete_document c _ _). vm_compute in x. subst x.
  cbv beta iota. split_and!; [vm_compute; reflexivity ..|].
  intros docs Hin. vm_compute in Hin. not_in_events Hin.
Qed.

(** ** A failed initialization *)

(** What a failure after [RAGSearch()] leaves: the new search handle. *)
Lemma initialize_fails_after_search (c : Collab) (w : World) (e : string) :
  RAGSearch_new c = Returns tt ->
  load_all_documents c (files w) = Raises e ->
  initialize_search_system c w
  = (Returns false,
     mkWorld (Some (Obj (length (log w)))) (vector_store w) (files w)
             (log w ++ [CallRAGSearch; CallLoadAllDocuments])).
Proof.
  intros H1 H2. unfold_init. rewrite H1. cbn [files]. rewrite H2.
  by rewrite <- app_assoc.
Qed.

(** C1, at the failing input.  With the stand-ins of lines 17-33 a
    reindex request fails, and afterwards the search handle is set while
    the store handle is not. *)
Theorem failed_initialization_sets_one_handle :
  let '(r, w) := reindex_documents placeholder_collab (initial_world ∅) in
  r = Returns (mkResponse 500 (JsonError "Reindexing failed"))
  /\ search_system w = Some (Obj 0)
  /\ vector_store w = None.
Proof. vm_compute. split_and!; reflexivity. Qed.

(** A search with a set search handle never initializes. *)
Lemma search_skips_initialization (c : Collab) (form : Form) (w : World) :
  is_Some (search_system w) ->
  exists evs,
    log (snd (search c form w)) = log w ++ evs /\ CallRAGSearch ∉ evs.
Proof.
  intros [h Hh]. unfold search. case_bool_decide.
  { exists []. cbn. rewrite app_nil_r. split; [done|]. by intros ?%elem_of_nil. }
  unfold search_and_render. unfold_monad. rewrite Hh.
  destruct (has_search_and_summarize c).
  - eexists [_]. split; [by destruct (search_and_summarize c _ _)|].
    intros Hin. not_in_events Hin.
  - exists []. cbn. rewrite app_nil_r. split; [done|]. by intros ?%elem_of_nil.
Qed.

(** C2, at the failing input.  With the stand-ins of lines 17-33 the
    first search reports the failed initialization and leaves the search
    handle set; the second search, in that world, does not initialize
    again: it calls [search_and_summarize] and nothing else. *)
Theorem failed_initialization_is_not_retried :
  let form := [("query", "what is rag")] in
  let '(r1, w1) := search placeholder_collab form (initial_world ∅) in
  let '(r2, w2) := search placeholder_collab form w1 in
  r1 = Returns (mkResponse 200 (Results "what is rag"
         "Search system is not initialized properly. Please check the logs."))
  /\ search_system w1 = Some (Obj 0)
  /\ vector_store w1 = None
  /\ r2 = Returns (mkResponse 200 (Results "what is rag"
            "This is a simulated response for: 'what is rag'"))
  /\ log w2 = log w1 ++ [CallSearchAndSummarize "what is rag" 5].
Proof. vm_compute. split_and!; reflexivity. Qed.

(** ** Exceptions at the handler boundary *)

Lemma health_propagates (c : Collab) (w : World) (msg : string) :
  os_listdir_error c = Some msg -> health c w = (Raises msg, w).
Proof. intros H. unfold health, os_listdir. by rewrite H. Qed.

(** Every modelled handler but [health] answers whatever happens. *)
Lemma handler_returns (c : Collab) (r : Request) (w : World) :
  r <> GetHealth -> exists resp, fst (handler c r w) = Returns resp.
Proof.
  intros Hr. destruct r; cbn [handler]; try done;
    try apply (try_except_returns _ (fun e => mkResponse 500 (JsonError e))).
  - unfold search. case_bool_decide; [by eexists|].
    apply (try_except_returns _
             (fun e => mkResponse 200 (Results _ ("An error occurred: " ++ e)))).
  - apply (try_except_returns _ (fun e => mkResponse 500 (JsonStatusError e))).
Qed.

(** C9, at the failing input.  When the upload folder cannot be listed,
    the exception leaves [health], while [search_system_status], which
    reads the folder the same way inside a [try], answers 500. *)
Theorem health_lets_exception_escape :
  health unreadable_folder (initial_world ∅)
  = (Raises "[Errno 13] Permission denied: 'data/sample_data'", initial_world ∅)
  /\ fst (search_system_status unreadable_folder (initial_world ∅))
     = Returns (mkResponse 500
         (JsonStatusError "[Errno 13] Permission denied: 'data/sample_data'")).
Proof. split; reflexivity. Qed.

(** * Further properties of the handlers *)

(** ** [allowed_file] *)

Lemma rsplit1_chars_app (sep : ascii) (before after : list ascii) :
  sep ∉ after ->
  Py.rsplit1_chars sep (before ++ sep :: after) = Some (before, after).
Proof.
  intros Hsep.
  assert (Hnone : Py.rsplit1_chars sep after = None).
  { induction after as [|a after IH]; [done|]. cbn.
    apply not_elem_of_cons in Hsep as [Hne Hsep]. rewrite (IH Hsep).
    destruct (Ascii.eqb_spec a sep); congruence. }
  induction before as [|b before IH]; cbn.
  - by rewrite Hnone, Ascii.eqb_refl.
  - by rewrite IH.
Qed.

Lemma rsplit1_chars_some (sep : ascii) (s before after : list ascii) :
  Py.rsplit1_chars sep s = Some (before, after) ->
  s = before ++ sep :: after /\ sep ∉ after.
Proof.
  assert (Hnone : forall t, Py.rsplit1_chars sep t = None -> sep ∉ t).
  { induction t as [|a t IH]; cbn; [intros _; apply not_elem_of_nil|].
    destruct (Py.rsplit1_chars sep t) as [[? ?]|]; [done|].
    destruct (Ascii.eqb_spec a sep); [done|]. intros _.
    apply not_elem_of_cons. split; [congruence | by apply IH]. }
  revert before. induction s as [|a s IH]; intros before; cbn; [done|].
  destruct (Py.rsplit1_chars sep s) as [[b' a']|] eqn:Hs.
  - intros [= <- <-]. destruct (IH b' eq_refl) as [-> Hsep]. done.
  - destruct (Ascii.eqb_spec a sep) as [->|]; [|done].
    intros [= <- <-]. split; [done | by apply Hnone].
Qed.

(** X1.  [allowed_file] accepts exactly the names whose text after the
    last dot is [pdf] in any mix of cases: a name is accepted if and only
    if it is [stem.ext] with no dot in [ext] and [ext.lower() == 'pdf'].
    A name without a dot is rejected. *)
Theorem allowed_file_iff (filename : string) :
  allowed_file filename = true
  <-> exists stem ext : string,
        filename = (stem ++ "." ++ ext)%string
        /\ ("."%char ∉ list_ascii_of_string ext)
        /\ Py.lower ext = "pdf".
Proof.
  unfold allowed_file. split.
  - destruct (Py.rsplit1_chars "." (list_ascii_of_string filename))
      as [[before after]|] eqn:Hsplit; [|done].
    intros Hin%bool_decide_eq_true_1. apply list_elem_of_singleton in Hin.
    apply rsplit1_chars_some in Hsplit as [Heq Hdot].
    exists (string_of_list_ascii before), (string_of_list_ascii after).
    split_and!.
    + rewrite <- (string_of_list_ascii_of_string filename), Heq.
      clear. induction before as [|b before IH]; cbn; [done | by rewrite IH].
    + by rewrite list_ascii_of_string_of_list_ascii.
    + unfold Py.lower. by rewrite list_ascii_of_string_of_list_ascii.
  - intros (stem & ext & -> & Hdot & Hlow).
    rewrite list_of_string_app.
    change (list_ascii_of_string ("." ++ ext))
      with ("."%char :: list_ascii_of_string ext).
    rewrite rsplit1_chars_app by done.
    apply bool_decide_eq_true_2, list_elem_of_singleton. exact Hlow.
Qed.

Example allowed_file_examples :
  allowed_file "report.pdf" = true /\ allowed_file "REPORT.PdF" = true
  /\ allowed_file ".pdf" = true /\ allowed_file "archive.pdf.zip" = false
  /\ allowed_file "pdf" = false /\ allowed_file "" = false
  /\ allowed_file "notes.pdf " = false.
Proof. repeat split; reflexivity. Qed.

(** ** [initialize_search_system] *)

(** X2.  [initialize_search_system] returns [True] exactly when
    [RAGSearch()], [load_all_documents] and [FaissVectorStore(...)] all
    return and then either [load()] returns, or there is no document to
    build from, or [build_from_documents] returns.  In particular an
    empty folder without a saved index initializes with success. *)
Theorem initialize_true_iff (c : Collab) (w : World) :
  fst (initialize_search_system c w) = Returns true
  <-> RAGSearch_new c = Returns tt
      /\ exists docs,
           load_all_documents c (files w) = Returns docs
           /\ FaissVectorStore_new c = Returns tt
           /\ (store_load c = Returns tt \/ docs = []
               \/ store_build_from_documents c docs = Returns tt).
Proof.
  unfold_init. split.
  - destruct (RAGSearch_new c) as [[]|]; [|done]. cbn [files].
    destruct (load_all_documents c (files w)) as [docs|]; [|done].
    destruct (FaissVectorStore_new c) as [[]|]; [|done].
    destruct (store_load c) as [[]|].
    + intros _. split; [done|]. exists docs. split_and!; eauto.
    + destruct docs as [|d docs].
      * intros _. split; [done|]. exists []. split_and!; eauto.
      * destruct (store_build_from_documents c (d :: docs)) as [[]|] eqn:Hb; [|done].
        intros _. split; [done|]. exists (d :: docs). split_and!; eauto.
  - intros (-> & docs & Hdocs & -> & Hcase). cbn [files]. rewrite Hdocs.
    destruct Hcase as [-> | [-> | Hb]]; [done | by destruct (store_load c) as [[]|] |].
    destruct (store_load c) as [[]|]; [done|].
    destruct docs; [done | by rewrite Hb].
Qed.

(** X3.  When [initialize_search_system] returns [True], both globals
    hold objects made by this very call, two different ones, and the
    upload folder is as it was. *)
Theorem initialize_true_handles (c : Collab) (w : World) :
  fst (initialize_search_system c w) = Returns true ->
  let w' := snd (initialize_search_system c w) in
  search_system w' = Some (Obj (length (log w)))
  /\ vector_store w' = Some (Obj (length (log w) + 2))
  /\ search_system w' <> vector_store w'
  /\ files w' = files w.
Proof.
  intros (Hrag & docs & Hdocs & Hstore & _)%initialize_true_iff. cbv zeta.
  rewrite initialize_search_handle, initialize_store_handle, initialize_files.
  rewrite Hrag, Hdocs, Hstore. split_and!; try done. intros [=]. lia.
Qed.

Lemma initialize_true_handles_witness :
  let w' := snd (initialize_search_system (working_collab false) (initial_world ∅)) in
  search_system w' = Some (Obj 0)
  /\ vector_store w' = Some (Obj 2)
  /\ search_system w' <> vector_store w'
  /\ files w' = ∅.
Proof.
  apply (initialize_true_handles (working_collab false) (initial_world ∅)).
  reflexivity.
Defined.

Lemma initialize_keeps_store (c : Collab) (w : World) :
  is_Some (vector_store w) ->
  is_Some (vector_store (snd (initialize_search_system c w))).
Proof. rewrite initialize_store_handle. repeat case_match; eauto. Qed.

Lemma serve_keeps_vector_store (w : World) (cr : Collab * Request) :
  is_Some (vector_store w) -> is_Some (vector_store (serve w cr)).
Proof.
  intros Hw. unfold serve.
  destruct (handler_handles (fst cr) (snd cr) w) as [Heq | (w1 & Hw1 & Heq)];
    unfold handles in *.
  - injection Heq as _ Hv. by rewrite Hv.
  - injection Heq as _ Hv. injection Hw1 as _ Hv1. rewrite Hv.
    apply initialize_keeps_store. by rewrite Hv1.
Qed.

(** X4.  No sequence of requests clears a handle: once the search handle
    is set it stays set, and so does the store handle. *)
Theorem handles_never_cleared (w : World) (trace : list (Collab * Request)) :
  (is_Some (search_system w) -> is_Some (search_system (run w trace)))
  /\ (is_Some (vector_store w) -> is_Some (vector_store (run w trace))).
Proof.
  split; intros Hw.
  - apply (run_invariant (fun w => is_Some (search_system w))); [|done].
    intros w0 cr. apply serve_keeps_search_system.
  - apply (run_invariant (fun w => is_Some (vector_store w))); [|done].
    intros w0 cr. apply serve_keeps_vector_store.
Qed.

Lemma handles_never_cleared_witness :
  is_Some (search_system
             (run (ready ∅)
                  [(placeholder_collab, PostReindex);
                   (unreadable_folder, GetHealth);
                   (placeholder_collab, DeleteDocument "x.pdf")])).
Proof.
  apply (proj1 (handles_never_cleared (ready ∅) _)). vm_compute. eauto.
Defined.

(** ** [reindex_documents] *)

(** X5.  A reindex request never touches the upload folder and has two
    answers only: 200, and then both handles are set, or 500 with
    [Reindexing failed]. *)
Theorem reindex_outcome (c : Collab) (w : World) :
  let '(r, w') := reindex_documents c w in
  files w' = files w
  /\ ((r = Returns (mkResponse 200 (JsonSuccess "Reindexing completed successfully"))
       /\ is_Some (search_system w') /\ is_Some (vector_store w'))
      \/ r = Returns (mkResponse 500 (JsonError "Reindexing failed"))).
Proof.
  unfold reindex_documents. unfold_monad.
  pose proof (initialize_files c w) as Hf.
  pose proof (initialize_success c w) as Hs.
  destruct (initialize_returns c w) as [b Hb].
  destruct (initialize_search_system c w) as [[b'|e] w']; cbn [fst snd] in *; [|done].
  simplify_eq. destruct b; split; try done.
  - left. split; [done|]. by apply Hs.
  - by right.
Qed.

(** ** [search] *)

(** X6.  Every search is answered with status 200 and the results page
    for the stripped query, whatever happens: a failed initialization and
    an exception of [search_and_summarize] are texts on that page, never
    an error status and never an exception. *)
Theorem search_always_200 (c : Collab) (form : Form) (w : World) :
  exists summary,
    fst (search c form w)
    = Returns (mkResponse 200
        (Results (Py.strip (form_get form "query" "")) summary)).
Proof.
  unfold search. case_bool_decide; [by eexists|].
  unfold search_and_render. unfold_monad.
  destruct (search_system w) as [h|].
  - destruct (has_search_and_summarize c); [|by eexists].
    destruct (search_and_summarize c _ _); by eexists.
  - destruct (initialize_search_system c w) as [[[]|e] w1]; try by eexists.
    destruct (has_search_and_summarize c); [|by eexists].
    destruct (search_and_summarize c _ _); by eexists.
Qed.

(** ** [search_system_status] and [health] *)

Lemma serve_status (c : Collab) (w : World) : serve w (c, GetStatus) = w.
Proof.
  unfold serve, handler, search_system_status, os_listdir. cbn [fst snd].
  unfold_monad. by destruct (os_listdir_error c).
Qed.

Lemma serve_health (c : Collab) (w : World) : serve w (c, GetHealth) = w.
Proof.
  unfold serve, handler, health, os_listdir. cbn [fst snd].
  unfold_monad. by destruct (os_listdir_error c).
Qed.

Lemma run_app (w : World) (t1 t2 : list (Collab * Request)) :
  run w (t1 ++ t2) = run (run w t1) t2.
Proof. unfold run. apply fold_left_app. Qed.

(** X7.  The two status requests only observe: wherever one of them is
    put into a sequence of requests, with the listing working or failing,
    the process ends in the same world as without it. *)
Theorem observers_change_nothing (w : World) (t1 t2 : list (Collab * Request))
        (c : Collab) (r : Request) :
  r = GetStatus \/ r = GetHealth ->
  run w (t1 ++ (c, r) :: t2) = run w (t1 ++ t2).
Proof.
  intros Hr. rewrite !run_app.
  change (run (run w t1) ((c, r) :: t2)) with (run (serve (run w t1) (c, r)) t2).
  destruct Hr as [-> | ->]; by rewrite ?serve_status, ?serve_health.
Qed.

Lemma observers_change_nothing_witness :
  run (initial_world one_report)
      ([(working_collab true, PostReindex)]
         ++ (unreadable_folder, GetHealth)
         :: [(working_collab true, DeleteDocument "report.pdf")])
  = run (initial_world one_report)
        ([(working_collab true, PostReindex)]
           ++ [(working_collab true, DeleteDocument "report.pdf")]).
Proof.
  apply (observers_change_nothing (initial_world one_report)
           [(working_collab true, PostReindex)]
           [(working_collab true, DeleteDocument "report.pdf")]
           unreadable_folder GetHealth).
  by right.
Defined.

(** X8.  When the folder can be listed, [health] and
    [search_system_status] report the same number of documents, and
    [health] says the search system is there exactly when the status is
    [initialized]. *)
Theorem status_and_health_agree (c : Collab) (w : World) :
  os_listdir_error c = None ->
  exists n present,
    fst (health c w) = Returns (mkResponse 200 (JsonHealth present n))
    /\ fst (search_system_status c w)
       = Returns (mkResponse 200
           (JsonStatus (if present then "initialized" else "not_initialized") n
              (negb (bool_decide (vector_store w = None))))).
Proof.
  intros Hc. rewrite search_system_status_ok by done.
  unfold health, os_listdir. rewrite Hc. unfold_monad.
  exists (document_count (files w)), (negb (bool_decide (search_system w = None))).
  split; [done|]. by case_bool_decide.
Qed.

Lemma status_and_health_agree_witness :
  exists n present,
    fst (health placeholder_collab (ready two_reports))
    = Returns (mkResponse 200 (JsonHealth present n))
    /\ fst (search_system_status placeholder_collab (ready two_reports))
       = Returns (mkResponse 200
           (JsonStatus (if present then "initialized" else "not_initialized") n
              (negb (bool_decide (vector_store (ready two_reports) = None))))).
Proof.
  apply (status_and_health_agree placeholder_collab (ready two_reports)).
  reflexivity.
Defined.

(** ** [upload_files] *)

Lemma upload_files_past_guards (c : Collab) (f : FileStorage)
      (rest : list FileStorage) (w : World) :
  file_name f <> "" ->
  (exists up fl msg,
     fst (upload_files c (Some (f :: rest)) w)
     = Returns (mkResponse 200 (JsonUpload up fl msg)))
  \/ exists e, fst (upload_files c (Some (f :: rest)) w)
               = Returns (mkResponse 500 (JsonError e)).
Proof.
  intros Hname. unfold upload_files. unfold_monad.
  rewrite bool_decide_eq_false_2 by done.
  destruct (upload_loop c (f :: rest) ([], []) w) as [[[up fl]|e] w1];
    [|right; by eexists].
  destruct up as [|u up]; [left; by eexists _, _, _|].
  destruct (initialize_returns c w1) as [b Hb].
  destruct (initialize_search_system c w1) as [[b'|e] w2]; [|done].
  left. by eexists _, _, _.
Qed.

(** X9.  An upload request is answered with 400 exactly when the field
    [files] is missing, is empty, or starts with a part without a file
    name; the world is then untouched.  Every other request ends with the
    two lists (200) or with 500. *)
Theorem upload_400_iff (c : Collab) (field : option (list FileStorage)) (w : World) :
  let guard := field = None \/ field = Some []
               \/ exists f rest, field = Some (f :: rest) /\ file_name f = "" in
  ((exists b, fst (upload_files c field w) = Returns (mkResponse 400 b)) <-> guard)
  /\ (guard -> snd (upload_files c field w) = w)
  /\ (~ guard ->
      (exists up fl msg,
         fst (upload_files c field w)
         = Returns (mkResponse 200 (JsonUpload up fl msg)))
      \/ exists e, fst (upload_files c field w)
                   = Returns (mkResponse 500 (JsonError e))).
Proof.
  cbv zeta. destruct field as [[|f rest]|].
  - split_and!; [split; [intros _; by right; left | by eexists] | done |].
    intros Hg. exfalso. apply Hg. by right; left.
  - destruct (decide (file_name f = "")) as [Hname | Hname].
    + assert (Hrun : upload_files c (Some (f :: rest)) w
                     = (Returns (mkResponse 400 (JsonError "No files selected")), w)).
      { unfold upload_files. unfold_monad. by rewrite bool_decide_eq_true_2. }
      rewrite Hrun. split_and!; [split; [intros _|by eexists] | done |].
      * right; right. by exists f, rest.
      * intros Hg. exfalso. apply Hg. right; right. by exists f, rest.
    + assert (Hng : ~ (Some (f :: rest) = None \/ Some (f :: rest) = Some []
                       \/ exists f0 rest0, Some (f :: rest) = Some (f0 :: rest0)
                                           /\ file_name f0 = "")).
      { intros [? | [? | (f0 & r0 & [= <- <-] & ?)]]; done. }
      pose proof (upload_files_past_guards c f rest w Hname) as Hres.
      split_and!; [split | done | done].
      * intros [b Hb]. exfalso.
        destruct Hres as [(up & fl & msg & H) | [e H]]; rewrite H in Hb; done.
      * intros Hg. by destruct Hng.
  - split_and!; [split; [intros _; by left | by eexists] | done |].
    intros Hg. exfalso. apply Hg. by left.
Qed.

(** X10.  No file of an upload request can succeed while the store
    handle is not set, as in a process that has never initialized: the
    list of successes is empty and the request leaves both handles as
    they were. *)
Theorem upload_needs_store (c : Collab) (fs : list FileStorage) (w : World)
        (up : list UploadedEntry) (fl : list FailedEntry) (msg : string) (w' : World) :
  vector_store w = None ->
  upload_files c (Some fs) w = (Returns (mkResponse 200 (JsonUpload up fl msg)), w') ->
  up = [] /\ search_system w' = search_system w /\ vector_store w' = None.
Proof.
  intros Hnone Hrun.
  destruct (upload_files_completed _ _ _ _ _ _ _ Hrun) as (w1 & Hloop & Hw').
  destruct (upload_loop_spec _ _ _ _ _ _ _ _ Hloop)
    as (ups & fls & Hup & _ & _ & _ & Hstore & _).
  cbn in Hup. subst ups.
  destruct (upload_loop_frame c fs ([], []) w) as (Hs & Hv & _).
  rewrite Hloop in Hs, Hv. cbn [snd] in Hs, Hv.
  destruct up as [|u up].
  - subst w'. by rewrite Hs, Hv.
  - exfalso. rewrite Hnone in Hstore. by destruct Hstore.
Qed.

Lemma upload_needs_store_witness :
  [] = ([] : list UploadedEntry)
  /\ search_system (snd (upload_files (working_collab true) (Some [a_pdf])
                           (initial_world ∅))) = None
  /\ vector_store (snd (upload_files (working_collab true) (Some [a_pdf])
                          (initial_world ∅))) = None.
Proof.
  eapply (upload_needs_store (working_collab true) [a_pdf] (initial_world ∅)).
  - reflexivity.
  - vm_compute. reflexivity.
Defined.

(** ** [delete_document] *)

(** X11.  Deleting a name whose sanitised form is a file of the upload
    folder.  When [os.remove] removes the file, exactly that file is gone
    and the answer is 200, also when the initialization that follows
    fails: its result is not looked at.  When [os.remove] raises, the
    answer is 500 with the text of the exception, the files and the
    handles are as before and no initialization is started. *)
Theorem delete_existing_document (c : Collab) (filename : string) (w : World)
        (content : string) :
  let filepath := Py.path_join UPLOAD_FOLDER (secure_filename c filename) in
  files w !! filepath = Some content ->
  match os_remove_error c filepath with
  | None =>
      fst (delete_document c filename w)
      = Returns (mkResponse 200 (JsonSuccess "Document deleted successfully"))
      /\ files (snd (delete_document c filename w)) = delete filepath (files w)
  | Some e =>
      fst (delete_document c filename w) = Returns (mkResponse 500 (JsonError e))
      /\ files (snd (delete_document c filename w)) = files w
      /\ handles (snd (delete_document c filename w)) = handles w
      /\ log (snd (delete_document c filename w)) = log w ++ [FileRemove filepath]
  end.
Proof.
  intros path Hfile. pose proof (delete_document_cases c filename w) as H.
  cbv zeta in H. fold path in H. rewrite Hfile in H.
  destruct (os_remove_error c path) as [e|]; rewrite H; cbn [fst snd].
  - done.
  - split; [done|]. by rewrite initialize_files.
Qed.

Lemma delete_existing_document_witness :
  fst (delete_document placeholder_collab "report.pdf" (initial_world two_reports))
  = Returns (mkResponse 200 (JsonSuccess "Document deleted successfully"))
  /\ files (snd (delete_document placeholder_collab "report.pdf"
                   (initial_world two_reports)))
     = delete "data/sample_data/report.pdf" two_reports.
Proof.
  apply (delete_existing_document placeholder_collab "report.pdf"
           (initial_world two_reports) "annual report").
  vm_compute. reflexivity.
Defined.

(** The same request when the system refuses the removal. *)
Example delete_refused :
  let c := locked_files in
  let w := ready two_reports in
  delete_document c "report.pdf" w
  = (Returns (mkResponse 500
       (JsonError "[Errno 13] Permission denied: 'data/sample_data/report.pdf'")),
     logged w [FileRemove "data/sample_data/report.pdf"]).
Proof. vm_compute. reflexivity. Qed.

(** ** Saved names *)

Lemma list_of_string_inj (s t : string) :
  list_ascii_of_string s = list_ascii_of_string t -> s = t.
Proof.
  intros H. rewrite <- (string_of_list_ascii_of_string s),
              <- (string_of_list_ascii_of_string t). by rewrite H.
Qed.

Lemma append_inv_head (p s t : string) : (p ++ s = p ++ t)%string -> s = t.
Proof.
  intros H. apply list_of_string_inj. apply (f_equal list_ascii_of_string) in H.
  rewrite !list_of_string_app in H. by apply app_inv_head in H.
Qed.

Lemma append_inv_tail (p s t : string) : (s ++ p = t ++ p)%string -> s = t.
Proof.
  intros H. apply list_of_string_inj. apply (f_equal list_ascii_of_string) in H.
  rewrite !list_of_string_app in H. by apply app_inv_tail in H.
Qed.

Lemma path_join_cases (b : string) :
  (Py.path_join UPLOAD_FOLDER b = b /\ exists r, b = String "/" r)
  \/ (Py.path_join UPLOAD_FOLDER b = (UPLOAD_FOLDER ++ "/" ++ b)%string
      /\ forall r, b <> String "/" r).
Proof.
  destruct b as [|a b]; [by right|].
  destruct a as [[] [] [] [] [] [] [] []];
    try (right; split; [reflexivity | intros r; discriminate]).
  left. split; [reflexivity | by eexists].
Qed.

Lemma path_join_inj (a b : string) :
  Py.path_join UPLOAD_FOLDER a = Py.path_join UPLOAD_FOLDER b -> a = b.
Proof.
  destruct (path_join_cases a) as [[-> [ra ->]] | [-> Ha]];
    destruct (path_join_cases b) as [[-> [rb ->]] | [-> Hb]]; intros H.
  - done.
  - discriminate.
  - discriminate.
  - apply append_inv_head in H. by apply append_inv_head in H.
Qed.

(** X12.  The time stamp keeps uploads of one name apart: two parts with
    the same file name, read at different stamps, are saved under
    different paths. *)
Theorem stamps_separate_uploads (c : Collab) (f g : FileStorage) :
  file_name f = file_name g ->
  file_stamp f <> file_stamp g ->
  upload_path c f <> upload_path c g.
Proof.
  intros Hname Hstamp Hpath. apply Hstamp.
  apply path_join_inj in Hpath. unfold unique_filename in Hpath.
  rewrite Hname in Hpath.
  destruct (Py.splitext (secure_filename c (file_name g))) as [name ext].
  apply append_inv_head in Hpath. apply append_inv_head in Hpath.
  by apply append_inv_tail in Hpath.
Qed.

Lemma stamps_separate_uploads_witness :
  upload_path placeholder_collab a_pdf
  <> upload_path placeholder_collab
       (mkFile "a.pdf" "later text" (Returns tt) "20250101_120001").
Proof.
  apply (stamps_separate_uploads placeholder_collab a_pdf
           (mkFile "a.pdf" "later text" (Returns tt) "20250101_120001")).
  - reflexivity.
  - vm_compute. discriminate.
Defined.

(** ** What an upload does to the folder *)

(** The folder after one iteration: unchanged, or changed at the path
    of the file only. *)
Lemma upload_one_files (c : Collab) (f : FileStorage)
      (acc : list UploadedEntry * list FailedEntry) (w : World) :
  let p := upload_path c f in
  match upload_one c f acc w with
  | (Returns (up', fl'), w') =>
      (up' = fst acc /\ (files w' = files w \/ files w' = delete p (files w)))
      \/ (exists m, up' = fst acc
                      ++ [mkUploaded (file_name f) (unique_filename c f) "success" m])
         /\ files w' = <[p := file_content f]> (files w)
  | (Raises _, w') =>
      files w' = files w \/ files w' = <[p := file_content f]> (files w)
  end.
Proof.
  destruct acc as [up fl]. cbv zeta. destruct (accepted f) eqn:Hacc.
  2: { rewrite upload_one_rejected by done. left. split; [done | by left]. }
  unfold upload_one, save, os_path_exists, os_remove. rewrite Hacc.
  unfold_monad. destruct (file_save f) as [[]|e]; [|by left].
  match goal with
  | |- context [process_and_index_document c ?p ?n ?w1] =>
      destruct (process_spec c p n w1) as (b & msg & evs & -> & _ & _)
  end.
  unfold logged in *. cbn [files log search_system vector_store fst snd] in *.
  destruct b.
  - right. split; [by eexists | done].
  - cbn [files log search_system vector_store].
    rewrite lookup_insert_eq. rewrite bool_decide_eq_true_2 by eauto.
    cbn [orb files log search_system vector_store].
    rewrite lookup_insert_eq. cbn [files log search_system vector_store fst].
    destruct (os_remove_error c (upload_path c f)); cbn; [by right|].
    left. split; [done|]. right. by rewrite delete_insert_eq.
Qed.

Lemma upload_one_other_files (c : Collab) (f : FileStorage)
      (acc : list UploadedEntry * list FailedEntry) (w : World) (q : string) :
  (accepted f = true -> q <> upload_path c f) ->
  files (snd (upload_one c f acc w)) !! q = files w !! q.
Proof.
  intros Hq. destruct (accepted f) eqn:Hacc.
  2: { destruct acc. by rewrite upload_one_rejected. }
  specialize (Hq eq_refl). pose proof (upload_one_files c f acc w) as H.
  cbv zeta in H. destruct (upload_one c f acc w) as [[[up' fl']|e] w']; cbn [snd].
  - destruct H as [[_ [-> | ->]] | [_ ->]]; [done | |].
    + by rewrite lookup_delete_ne.
    + by rewrite lookup_insert_ne.
  - destruct H as [-> | ->]; [done|]. by rewrite lookup_insert_ne.
Qed.

(** X13.  An upload request, however it ends, leaves every file alone
    that is not at a path one of its accepted parts is saved to. *)
Theorem upload_touches_only_its_paths (c : Collab) (fs : list FileStorage)
        (w : World) (q : string) :
  q ∉ (upload_path c <$> List.filter accepted fs) ->
  files (snd (upload_files c (Some fs) w)) !! q = files w !! q.
Proof.
  intros Hq.
  assert (Hloop : forall acc w0,
            files (snd (upload_loop c fs acc w0)) !! q = files w0 !! q).
  { induction fs as [|f fs IH]; intros acc w0; [done|].
    cbn [upload_loop]. unfold mbind, M_bind.
    assert (Hf : accepted f = true -> q <> upload_path c f).
    { intros Hacc ->. apply Hq. cbn [List.filter]. rewrite Hacc. by left. }
    pose proof (upload_one_other_files c f acc w0 q Hf) as Hone.
    destruct (upload_one c f acc w0) as [[acc'|e] w1]; cbn [snd] in *; [|done].
    rewrite IH; [done|]. intros Hin. apply Hq. cbn [List.filter].
    destruct (accepted f); [by right | done]. }
  destruct (upload_files_world c (Some fs) w) as [-> | (fs' & w1 & [= <-] & -> & Hcase)];
    [done|].
  destruct Hcase as [-> | ->]; [apply Hloop|].
  rewrite initialize_files. apply Hloop.
Qed.

Lemma upload_touches_only_its_paths_witness :
  files (snd (upload_files (working_collab true) (Some [a_pdf; scan_pdf; notes_txt])
                (ready two_reports)))
    !! "data/sample_data/report.pdf"
  = files (ready two_reports) !! "data/sample_data/report.pdf".
Proof.
  apply (upload_touches_only_its_paths (working_collab true)
           [a_pdf; scan_pdf; notes_txt] (ready two_reports)).
  apply (bool_decide_unpack _). vm_compute. exact I.
Defined.

(** X14.  Upload and delete are inverse on the folder: after a request
    of one part, processed with success and saved to a path that was
    free, deleting the name it was saved as (a name the sanitiser leaves
    alone, a file the system lets go) answers 200 and gives back the
    folder as it was before the upload. *)
Theorem upload_then_delete (c c' : Collab) (f : FileStorage) (w : World)
        (e : UploadedEntry) (fl : list FailedEntry) (msg : string) (w1 : World) :
  upload_files c (Some [f]) w
  = (Returns (mkResponse 200 (JsonUpload [e] fl msg)), w1) ->
  files w !! upload_path c f = None ->
  secure_filename c' (up_saved_as e) = up_saved_as e ->
  os_remove_error c' (upload_path c f) = None ->
  fst (delete_document c' (up_saved_as e) w1)
  = Returns (mkResponse 200 (JsonSuccess "Document deleted successfully"))
  /\ files (snd (delete_document c' (up_saved_as e) w1)) = files w.
Proof.
  intros Hrun Hfree Hsafe Hgo.
  destruct (upload_files_completed _ _ _ _ _ _ _ Hrun) as (w0 & Hloop & ->).
  cbn [upload_loop] in Hloop. unfold mbind, M_bind, mret, M_ret in Hloop.
  pose proof (upload_one_files c f ([], []) w) as Hone. cbv zeta in Hone.
  destruct (upload_one c f ([], []) w) as [[[up' fl']|err] w0']; [|done].
  simplify_eq. cbn [fst] in Hone.
  destruct Hone as [[? _] | [[m Hm] Hfiles]]; [done|].
  cbn in Hm. simplify_eq. cbn [up_saved_as] in *.
  assert (Hfile : files (snd (initialize_search_system c w0))
                    !! Py.path_join UPLOAD_FOLDER
                         (secure_filename c' (unique_filename c f))
                  = Some (file_content f)).
  { rewrite Hsafe, initialize_files, Hfiles. apply lookup_insert_eq. }
  pose proof (delete_document_cases c' (unique_filename c f)
                (snd (initialize_search_system c w0))) as Hdel.
  cbv zeta in Hdel. rewrite Hfile, Hsafe in Hdel.
  fold (upload_path c f) in Hdel. rewrite Hgo in Hdel. rewrite Hdel.
  cbn [fst snd]. split; [done|].
  rewrite initialize_files. cbn [removed files].
  rewrite initialize_files, Hfiles. by apply delete_insert_id.
Qed.

Lemma upload_then_delete_witness :
  let w1 := snd (upload_files (working_collab true) (Some [a_pdf]) (ready one_report)) in
  fst (delete_document (working_collab false) "a_20250101_120000.pdf" w1)
  = Returns (mkResponse 200 (JsonSuccess "Document deleted successfully"))
  /\ files (snd (delete_document (working_collab false) "a_20250101_120000.pdf" w1))
     = files (ready one_report).
Proof.
  eapply (upload_then_delete (working_collab true) (working_collab false) a_pdf
            (ready one_report)
            (mkUploaded "a.pdf" "a_20250101_120000.pdf" "success"
               "Document processed and added to vector store successfully")).
  - vm_compute. reflexivity.
  - vm_compute. reflexivity.
  - vm_compute. reflexivity.
  - reflexivity.
Defined.

(** ** [list_documents] *)

Lemma insert_by_date_perm (e : DocumentEntry) (l : list DocumentEntry) :
  insert_by_date e l ≡ₚ e :: l.
Proof.
  induction l as [|y r IH]; cbn; [done|].
  destruct (String.leb (de_date y) (de_date e)); [done|].
  rewrite IH. apply Permutation_swap.
Qed.

Lemma sort_newest_first_perm (l : list DocumentEntry) : sort_newest_first l ≡ₚ l.
Proof.
  induction l as [|e l IH]; cbn; [done|]. by rewrite insert_by_date_perm, IH.
Qed.

Lemma insert_by_date_sorted (e : DocumentEntry) (l : list DocumentEntry) :
  newest_first l -> newest_first (insert_by_date e l).
Proof.
  unfold newest_first. induction l as [|y r IH]; intros Hs; cbn.
  - repeat constructor.
  - destruct (String.leb (de_date y) (de_date e)) eqn:Hle.
    + constructor; [done|]. by constructor.
    + apply Sorted_inv in Hs as [Hr Hhd]. constructor; [by apply IH|].
      destruct r as [|z r]; cbn.
      * constructor. destruct (String.leb_total (de_date e) (de_date y)); congruence.
      * destruct (String.leb (de_date z) (de_date e)).
        -- constructor.
           destruct (String.leb_total (de_date e) (de_date y)); congruence.
        -- constructor. by apply HdRel_inv in Hhd.
Qed.

Lemma sort_newest_first_sorted (l : list DocumentEntry) :
  newest_first (sort_newest_first l).
Proof.
  induction l as [|e l IH]; cbn; [constructor | by apply insert_by_date_sorted].
Qed.

Lemma string_compare_refl (s : string) : String.compare s s = Eq.
Proof.
  induction s as [|a s IH]; cbn; [done|].
  unfold Ascii.compare. by rewrite N.compare_refl.
Qed.

(** Entries of one date keep the order in which they were listed. *)
Lemma insert_by_date_stable (d : string) (e : DocumentEntry) (l : list DocumentEntry) :
  List.filter (fun x => String.eqb (de_date x) d) (insert_by_date e l)
  = List.filter (fun x => String.eqb (de_date x) d) (e :: l).
Proof.
  induction l as [|y r IH]; [done|]. cbn [insert_by_date].
  destruct (String.leb (de_date y) (de_date e)) eqn:Hle; [done|].
  cbn [List.filter] in *. rewrite IH.
  destruct (String.eqb_spec (de_date e) d) as [He|]; [|done].
  destruct (String.eqb_spec (de_date y) d) as [Hy|]; [|done].
  exfalso. rewrite He, Hy in Hle. unfold String.leb in Hle.
  by rewrite string_compare_refl in Hle.
Qed.

Lemma sort_newest_first_stable (d : string) (l : list DocumentEntry) :
  List.filter (fun x => String.eqb (de_date x) d) (sort_newest_first l)
  = List.filter (fun x => String.eqb (de_date x) d) l.
Proof.
  induction l as [|e l IH]; [done|]. cbn [sort_newest_first foldr].
  rewrite insert_by_date_stable. cbn [List.filter].
  change (foldr insert_by_date [] l) with (sort_newest_first l). by rewrite IH.
Qed.

(** The loop over the listing: it changes nothing, and when every
    [os.stat] returns it yields one entry per PDF name, in order. *)
Lemma stat_documents_spec (os_stat : string -> outcome Stat) (names : list string)
      (w : World) :
  snd (stat_documents os_stat names w) = w
  /\ match fst (stat_documents os_stat names w) with
     | Returns docs =>
         map de_name docs = pdf_files names
         /\ Forall (fun e => de_path e = Py.path_join UPLOAD_FOLDER (de_name e)
                             /\ os_stat (de_path e)
                                = Returns (mkStat (de_size_bytes e) (de_date e))) docs
     | Raises _ =>
         exists n, n ∈ pdf_files names
                   /\ forall st, os_stat (Py.path_join UPLOAD_FOLDER n) <> Returns st
     end.
Proof.
  induction names as [|n names [IHw IH]]; [by repeat constructor|].
  cbn [stat_documents pdf_files List.filter].
  fold (pdf_files names). destruct (Py.endswith n ".pdf"); [|done].
  unfold_monad. destruct (os_stat (Py.path_join UPLOAD_FOLDER n)) as [[sz dt]|e] eqn:Hst.
  - destruct (stat_documents os_stat names w) as [[docs|e] w']; cbn [fst snd] in *.
    + split; [done|]. destruct IH as [Hn Hall]. split; [by rewrite <- Hn|].
      constructor; [|done]. cbn [de_path de_name de_size_bytes de_date]. by rewrite Hst.
    + split; [done|]. destruct IH as (m & Hm & Hno). exists m. split; [by right|done].
  - split; [done|]. exists n. split; [by left|]. intros st. by rewrite Hst.
Qed.

(** X15.  When [list_documents] answers 200, its list has one entry per
    name of the folder ending in [.pdf], each with the size and date
    [os.stat] gave for its path; the entries are in order of decreasing
    date, and entries of one date are in the order of the listing.  The
    request changes nothing. *)
Theorem list_documents_sorted (c : Collab) (os_stat : string -> outcome Stat)
        (w : World) (docs : list DocumentEntry) (w' : World) :
  list_documents c os_stat w = (Returns (200%nat, Documents docs), w') ->
  w' = w
  /\ newest_first docs
  /\ exists listed,
       map de_name listed = pdf_files (listing (files w))
       /\ docs ≡ₚ listed
       /\ (forall d, List.filter (fun x => String.eqb (de_date x) d) docs
                     = List.filter (fun x => String.eqb (de_date x) d) listed)
       /\ Forall (fun e => de_path e = Py.path_join UPLOAD_FOLDER (de_name e)
                           /\ os_stat (de_path e)
                              = Returns (mkStat (de_size_bytes e) (de_date e))) listed.
Proof.
  unfold list_documents, os_listdir. unfold_monad.
  destruct (os_listdir_error c); [done|].
  destruct (stat_documents_spec os_stat (listing (files w)) w) as [Hw Hdocs].
  destruct (stat_documents os_stat (listing (files w)) w) as [[listed|e] w1];
    cbn [fst snd] in *; [|done].
  intros [= <- <-]. split; [done|]. split; [apply sort_newest_first_sorted|].
  exists listed. destruct Hdocs as [Hnames Hall]. split_and!; try done.
  - apply sort_newest_first_perm.
  - intros d. apply sort_newest_first_stable.
Qed.

Lemma list_documents_sorted_witness :
  newest_first
    [mkEntry "minutes.pdf" 1024 "2025-03-01 17:05" "data/sample_data/minutes.pdf";
     mkEntry "report.pdf" 2048 "2025-01-02 09:30" "data/sample_data/report.pdf"].
Proof.
  refine (proj1 (proj2 (list_documents_sorted placeholder_collab stat_of_sample
                          (initial_world two_reports) _ _ _))).
  vm_compute. reflexivity.
Defined.

(** X16.  [list_documents] answers 200 exactly when the folder can be
    listed and [os.stat] returns for every listed name ending in [.pdf];
    otherwise the answer is 500.  No exception leaves the handler. *)
Theorem list_documents_status (c : Collab) (os_stat : string -> outcome Stat)
        (w : World) :
  ((exists docs, fst (list_documents c os_stat w) = Returns (200%nat, Documents docs))
   <-> os_listdir_error c = None
       /\ forall n, n ∈ pdf_files (listing (files w)) ->
            exists st, os_stat (Py.path_join UPLOAD_FOLDER n) = Returns st)
  /\ ((exists docs, fst (list_documents c os_stat w) = Returns (200%nat, Documents docs))
      \/ exists e, fst (list_documents c os_stat w) = Returns (500%nat, DocumentsError e)).
Proof.
  unfold list_documents, os_listdir. unfold_monad.
  destruct (os_listdir_error c) as [e|].
  { split; [|right; by eexists]. split; [by intros [? ?] | by intros [? _]]. }
  destruct (stat_documents_spec os_stat (listing (files w)) w) as [Hw Hdocs].
  destruct (stat_documents os_stat (listing (files w)) w) as [[listed|e] w1];
    cbn [fst snd] in *.
  - split; [|left; by eexists]. split; [|by eexists]. intros _. split; [done|].
    destruct Hdocs as [Hnames Hall]. intros n Hn. rewrite <- Hnames in Hn.
    apply list_elem_of_fmap in Hn as (d & -> & Hd).
    rewrite Forall_forall in Hall. destruct (Hall d Hd) as [Hp Hst].
    rewrite <- Hp, Hst. by eexists.
  - split; [|right; by eexists]. split; [by intros [? ?]|].
    intros [_ Hall]. destruct Hdocs as (n & Hn & Hno).
    destruct (Hall n Hn) as [st Hst]. by apply Hno in Hst.
Qed.

(** ** [view_document] *)

(** X17.  [view_document] always returns and changes nothing.  It
    answers 404 exactly when [delete_document] does; for every other name
    it hands the sanitised path and name to [send_file] and returns the
    response [send_file] made, or answers 500 with the text of the
    exception [send_file] raised. *)
Theorem view_agrees_with_delete {R : Type} (c : Collab)
        (send_file : string -> string -> outcome R) (filename : string) (w : World) :
  let safe_filename := secure_filename c filename in
  let filepath := Py.path_join UPLOAD_FOLDER safe_filename in
  let view := view_document c send_file filename w in
  let not_found := Returns (mkResponse 404 (JsonError "Document not found")) in
  snd view = w
  /\ (fst view = Returns (ViewError 404 "Document not found")
      <-> fst (delete_document c filename w) = not_found)
  /\ (fst (delete_document c filename w) = not_found
      \/ fst view = Returns match send_file filepath safe_filename with
                            | Returns response => Sent response
                            | Raises e => ViewError 500 e
                            end).
Proof.
  intros safe path. pose proof (delete_document_cases c filename w) as Hdel.
  cbv zeta in Hdel. fold safe path in Hdel.
  unfold view_document, os_path_exists. unfold_monad. fold safe path.
  destruct (files w !! path) as [content|] eqn:Hfile.
  - rewrite bool_decide_eq_true_2 by eauto. cbn [orb].
    destruct (os_remove_error c path); rewrite Hdel;
      destruct (send_file path safe); cbn [fst snd];
      (split_and!; [done | split; intros; discriminate | by right]).
  - rewrite (bool_decide_eq_false_2 (is_Some None)) by apply is_Some_None. cbn [orb].
    case_bool_decide; rewrite Hdel; cbn [fst snd].
    + destruct (send_file path safe); cbn [fst snd];
        (split_and!; [done | split; intros; discriminate | by right]).
    + split_and!; [done | done | by left].
Qed.

(** ** Files without text *)

Lemma process_without_text (c : Collab) (filepath filename : string) (w : World) :
  files w !! filepath = Some "" ->
  process_and_index_document c filepath filename w
  = (Returns (false, "No text could be extracted from PDF"), w).
Proof.
  intros Hfile. unfold process_and_index_document, extract_text_from_pdf.
  unfold_monad. by rewrite Hfile.
Qed.

Lemma upload_one_without_text (c : Collab) (f : FileStorage)
      (up : list UploadedEntry) (fl : list FailedEntry) (w : World)
      (up' : list UploadedEntry) (fl' : list FailedEntry) (w' : World) :
  accepted f = true ->
  file_content f = "" ->
  upload_one c f (up, fl) w = (Returns (up', fl'), w') ->
  up' = up
  /\ fl' = fl ++ [mkFailed (file_name f) "No text could be extracted from PDF"].
Proof.
  intros Hacc Hempty. unfold upload_one, save, os_path_exists, os_remove.
  rewrite Hacc. unfold_monad. destruct (file_save f) as [[]|e]; [|done].
  rewrite process_without_text
    by (cbn [files]; rewrite Hempty; apply lookup_insert_eq).
  cbn [files log search_system vector_store].
  rewrite lookup_insert_eq. rewrite bool_decide_eq_true_2 by eauto.
  cbn [orb files]. rewrite lookup_insert_eq.
  destruct (os_remove_error c (upload_path c f)); [done|].
  by intros [= <- <- <-].
Qed.

(** X18.  A PDF from which no text can be extracted is never indexed:
    in every upload request that is answered with the two lists, each
    accepted part without text is in the list of failures with the
    message [No text could be extracted from PDF]. *)
Theorem upload_without_text_fails (c : Collab) (fs : list FileStorage) (w : World)
        (up : list UploadedEntry) (fl : list FailedEntry) (msg : string)
        (w' : World) (f : FileStorage) :
  upload_files c (Some fs) w = (Returns (mkResponse 200 (JsonUpload up fl msg)), w') ->
  f ∈ fs ->
  accepted f = true ->
  file_content f = "" ->
  mkFailed (file_name f) "No text could be extracted from PDF" ∈ fl.
Proof.
  intros Hrun Hin Hacc Hempty.
  destruct (upload_files_completed _ _ _ _ _ _ _ Hrun) as (w1 & Hloop & _).
  clear Hrun. revert Hloop. generalize ([] : list UploadedEntry).
  generalize ([] : list FailedEntry). revert w.
  induction fs as [|g fs IH]; intros w fl0 up0 Hloop; [by apply elem_of_nil in Hin|].
  cbn [upload_loop] in Hloop. unfold mbind, M_bind in Hloop.
  destruct (upload_one c g (up0, fl0) w) as [[[up1 fl1]|e] w0] eqn:Hone; [|done].
  apply elem_of_cons in Hin as [<- | Hin].
  - destruct (upload_one_without_text _ _ _ _ _ _ _ _ Hacc Hempty Hone) as [_ ->].
    destruct (upload_loop_spec _ _ _ _ _ _ _ _ Hloop) as (_ & fls & _ & -> & _).
    rewrite <- app_assoc. apply elem_of_app. right. by left.
  - by apply (IH Hin w0 fl1 up1).
Qed.

Lemma upload_without_text_fails_witness :
  mkFailed "b.pdf" "No text could be extracted from PDF"
  ∈ [mkFailed "b.pdf" "No text could be extracted from PDF";
     mkFailed "notes.txt" "Invalid file type. Only PDF files are allowed."].
Proof.
  eapply (upload_without_text_fails (working_collab true)
            [a_pdf; b_scan_pdf; notes_txt] (ready ∅) _ _ _ _ b_scan_pdf).
  - vm_compute. reflexivity.
  - right. left.
  - reflexivity.
  - reflexivity.
Defined.

(** ** The first search *)

(** X19.  A search with a query that is not blank, in a process without
    a search handle, first runs [initialize_search_system], once; when
    that returns [False] the page says so and [search_and_summarize] is
    not called, and when it returns [True] the only further call is the
    one to [search_and_summarize] with the stripped query and the [top_k]
    computed from the form, if the search system has that method. *)
Theorem search_initializes_first (c : Collab) (form : Form) (w : World) :
  search_system w = None ->
  Py.strip (form_get form "query" "") <> "" ->
  let query := Py.strip (form_get form "query" "") in
  let '(r, w') := search c form w in
  match fst (initialize_search_system c w) with
  | Returns true =>
      log w' = log w ++ init_calls c (files w)
                 ++ (if has_search_and_summarize c
                     then [CallSearchAndSummarize query (top_k_of_form c form)]
                     else [])
      /\ is_Some (search_system w') /\ is_Some (vector_store w')
  | _ =>
      log w' = log w ++ init_calls c (files w)
      /\ r = Returns (mkResponse 200 (Results query
             "Search system is not initialized properly. Please check the logs."))
  end.
Proof.
  intros Hnone Hquery. cbv zeta. unfold search.
  rewrite bool_decide_eq_false_2 by done.
  unfold search_and_render. unfold_monad. rewrite Hnone.
  pose proof (initialize_log c w) as Hl.
  pose proof (initialize_success c w) as Hs.
  destruct (initialize_returns c w) as [b Hb].
  destruct (initialize_search_system c w) as [[b'|e] w1]; cbn [fst snd] in *; [|done].
  simplify_eq. destruct b.
  - specialize (Hs eq_refl). destruct (has_search_and_summarize c).
    + destruct (search_and_summarize c _ _); cbn [log search_system vector_store];
        by rewrite Hl, <- app_assoc.
    + by rewrite app_nil_r.
  - done.
Qed.

Lemma search_initializes_first_witness :
  let c := working_collab false in
  let form := [("query", " report "); ("top_k", "3")] in
  let w := initial_world two_reports in
  let query := Py.strip (form_get form "query" "") in
  let '(r, w') := search c form w in
  match fst (initialize_search_system c w) with
  | Returns true =>
      log w' = log w ++ init_calls c (files w)
                 ++ (if has_search_and_summarize c
                     then [CallSearchAndSummarize query (top_k_of_form c form)]
                     else [])
      /\ is_Some (search_system w') /\ is_Some (vector_store w')
  | _ =>
      log w' = log w ++ init_calls c (files w)
      /\ r = Returns (mkResponse 200 (Results query
             "Search system is not initialized properly. Please check the logs."))
  end.
Proof.
  apply (search_initializes_first (working_collab false)
           [("query", " report "); ("top_k", "3")] (initial_world two_reports)).
  - reflexivity.
  - vm_compute. discriminate.
Defined.

(** ** The handles in every reachable world *)

(** X20.  Whatever requests the process has served since its import,
    with whatever collaborators, the store handle is never set while the
    search handle is not. *)
Theorem store_handle_needs_search_handle (fs : gmap string string)
        (trace : list (Collab * Request)) :
  let w := run (initial_world fs) trace in
  vector_store w <> None -> search_system w <> None.
Proof.
  cbv zeta. intros Hv Hs. pose proof (run_store_needs_search fs trace) as Hinv.
  unfold store_needs_search in Hinv. rewrite Hs in Hinv.
  destruct (vector_store (run (initial_world fs) trace)) as [h|]; [|done].
  by destruct (Hinv (mk_is_Some _ _ eq_refl)).
Qed.

Lemma store_handle_needs_search_handle_witness :
  search_system (run (initial_world one_report)
                     [(working_collab false, PostSearch [("query", "report")])])
  <> None.
Proof.
  apply (store_handle_needs_search_handle one_report
           [(working_collab false, PostSearch [("query", "report")])]).
  vm_compute. discriminate.
Defined.
